(** * The Drizzle policy adapter of node-casbin, embedded and verified

    The development follows [src/adapter.ts] and [src/casbinRule.ts].

    - [NewCasbinRule] / [CasbinRule] are the row types of [casbinRule.ts].
    - Module [Drizzle] is the part of the query builder the adapter calls:
      [eq], [and], and the four statements select / insert / update /
      delete over the single table [casbin_rule].  The table is a list of
      rows in storage order; a statement either settles or is rejected by
      the database, which is what an [await] in the source can observe.
    - Module [Casbin] is the part of the enforcer's [Model] that the adapter
      reads ([model.model.get(sec)], [ast.policy]).  The enforcer's line
      parser [Helper.loadPolicyLine] is taken as a parameter of the
      adapter: nothing is assumed about it.
    - The adapter methods are written in a small monad [Async] that mirrors
      the [async] / [await] structure of the class. *)

From Stdlib Require Import List String Ascii ZArith Lia Bool Arith Permutation.
Import ListNotations.

Local Open Scope string_scope.
Local Open Scope list_scope.
#[local] Set Warnings "-register-all".

(** ** Rows ([src/casbinRule.ts]) *)

Module Row.

(** [NewCasbinRule = Omit<CasbinRule, 'id'>]: every column is
    [string | null]. *)
Record NewCasbinRule : Type := {
  ptype : option string;
  v0 : option string;
  v1 : option string;
  v2 : option string;
  v3 : option string;
  v4 : option string;
  v5 : option string
}.

(** A stored row: the surrogate key given by the database and the seven
    rule columns. *)
Record CasbinRule : Type := {
  id : nat;
  columns :> NewCasbinRule
}.

End Row.
Export Row.

(** ** JavaScript values used by the adapter *)

(** Truthiness of a [string]: only the empty string is falsy. *)
Definition truthy (value : string) : bool := negb (value =? "").

(** Truthiness of a [string | null]: [null] and the empty string are falsy. *)
Definition truthy_opt (n : option string) : bool :=
  match n with
  | Some s => truthy s
  | None => false
  end.

(** String conversion of a [string | null], as performed by [+] and by a
    template literal. *)
Definition js_string (n : option string) : string :=
  match n with
  | Some s => s
  | None => "null"
  end.

(** The one-character string holding a double quote (code 34). *)
Definition dquote : string := String (ascii_of_nat 34) EmptyString.

(** [Array.prototype.push] on an array used as an accumulator. *)
Definition push {A : Type} (arr : list A) (x : A) : list A := arr ++ [x].

(** ** The asynchronous calls: state passing with rejection *)

Inductive Outcome (A : Type) : Type :=
| Resolved (a : A)
| Rejected.

Arguments Resolved {A} a.
Arguments Rejected {A}.

Definition resolved {A : Type} (o : Outcome A) : bool :=
  match o with
  | Resolved _ => true
  | Rejected => false
  end.

(** A computation over mutable state [S]: it settles with a value or is
    rejected, and in both cases leaves a state behind. *)
Definition Async (S A : Type) : Type := S -> Outcome A * S.

Definition ret {S A : Type} (a : A) : Async S A := fun s => (Resolved a, s).

Definition bind {S A B : Type} (m : Async S A) (k : A -> Async S B) : Async S B :=
  fun s =>
    match m s with
    | (Resolved a, s') => k a s'
    | (Rejected, s') => (Rejected, s')
    end.

Declare Scope async_scope.
Delimit Scope async_scope with async.
Notation "x <- m ;; k" := (bind m (fun x => k))
  (at level 61, m at next level, right associativity) : async_scope.
Notation "m ;; k" := (bind m (fun _ => k))
  (at level 61, right associativity) : async_scope.
Local Open Scope async_scope.

(** [for (const x of xs) { body(x) }], stopping at the first rejection. *)
Fixpoint for_each {S A : Type} (xs : list A) (body : A -> Async S unit) : Async S unit :=
  match xs with
  | [] => ret tt
  | x :: rest => body x ;; for_each rest body
  end.

(** ** The query builder and the table *)

Module Drizzle.

(** The columns the adapter names: [this.table.ptype], [this.table.v0] ... *)
Inductive Column : Type :=
| col_ptype | col_v0 | col_v1 | col_v2 | col_v3 | col_v4 | col_v5.

Definition column_value (c : Column) (r : NewCasbinRule) : option string :=
  match c with
  | col_ptype => ptype r
  | col_v0 => v0 r
  | col_v1 => v1 r
  | col_v2 => v2 r
  | col_v3 => v3 r
  | col_v4 => v4 r
  | col_v5 => v5 r
  end.

(** Conditions: [eq(column, value)] and the conjunction built by
    [and(...conditions)]. *)
Inductive SQL : Type :=
| eq (column : Column) (value : string)
| conj (conditions : list SQL).

(** [and(...conditions)] is [undefined] for an empty list. *)
Definition and (conditions : list SQL) : option SQL :=
  match conditions with
  | [] => None
  | _ :: _ => Some (conj conditions)
  end.

(** A row satisfies [column = value] when the column is not NULL and holds
    exactly [value]; a comparison with NULL is never true. *)
Fixpoint holds (c : SQL) (r : NewCasbinRule) : bool :=
  match c with
  | eq column value =>
      match column_value column r with
      | Some s => (s =? value)%string
      | None => false
      end
  | conj conditions => forallb (fun c' => holds c' r) conditions
  end.

(** [.where(w)]: no clause, or [.where(undefined)], selects every row. *)
Definition selected (where_ : option SQL) (r : NewCasbinRule) : bool :=
  match where_ with
  | None => true
  | Some c => holds c r
  end.

Inductive Statement : Type :=
| select_from (where_ : option SQL)
| insert_values (values : list NewCasbinRule)
| update_set (set : NewCasbinRule) (where_ : option SQL)
| delete_from (where_ : option SQL).

(** The database behind [this.db]: the table, the next surrogate key, the
    statements issued so far, and for each coming statement whether the
    database will reject it ([true]) or settle it. *)
Record Db : Type := {
  rows : list CasbinRule;
  next_id : nat;
  journal : list Statement;
  faults : list bool
}.

(** Rows inserted together take consecutive keys. *)
Fixpoint stored (first : nat) (values : list NewCasbinRule) : list CasbinRule :=
  match values with
  | [] => []
  | v :: rest => {| id := first; columns := v |} :: stored (S first) rest
  end.

(** The rows a settled statement returns. *)
Definition returned (s : Statement) (table : list CasbinRule) : list CasbinRule :=
  match s with
  | select_from w => filter (fun r : CasbinRule => selected w r) table
  | _ => []
  end.

(** The table after a settled statement.  The list stands for the storage
    order of an engine that updates a row in place; where an engine returns
    an updated row in a later read without ORDER BY is its own choice. *)
Definition applied (s : Statement) (first : nat) (table : list CasbinRule) : list CasbinRule :=
  match s with
  | select_from _ => table
  | insert_values values => table ++ stored first values
  | update_set set w =>
      map (fun r : CasbinRule =>
             if selected w r then {| id := id r; columns := set |} else r) table
  | delete_from w => filter (fun r : CasbinRule => negb (selected w r)) table
  end.

Definition keys_used (s : Statement) : nat :=
  match s with
  | insert_values values => List.length values
  | _ => 0
  end.

(** The database after it settled a statement, and after it rejected one:
    the statement is recorded in both cases, and a rejected statement
    changes nothing in the table. *)
Definition settled (s : Statement) (d : Db) : Db :=
  {| rows := applied s (next_id d) (rows d);
     next_id := next_id d + keys_used s;
     journal := journal d ++ [s];
     faults := tl (faults d) |}.

Definition refused (s : Statement) (d : Db) : Db :=
  {| rows := rows d;
     next_id := next_id d;
     journal := journal d ++ [s];
     faults := tl (faults d) |}.

(** Awaiting a statement. *)
Definition execute (s : Statement) : Async Db (list CasbinRule) :=
  fun d =>
    match faults d with
    | true :: _ => (Rejected, refused s d)
    | _ => (Resolved (returned s (rows d)), settled s d)
    end.

(** The database settles its next [n] statements. *)
Fixpoint accepts (n : nat) (fs : list bool) : bool :=
  match n, fs with
  | 0, _ => true
  | S _, [] => true
  | S n', f :: later => negb f && accepts n' later
  end.

End Drizzle.

(** ** The enforcer's model, as far as the adapter reads it *)

Module Casbin.

(** A JavaScript [Map] with string keys: its entries in insertion order. *)
Definition Map (V : Type) : Type := list (string * V).

Fixpoint get {V : Type} (m : Map V) (key : string) : option V :=
  match m with
  | [] => None
  | (k, v) :: rest => if (k =? key)%string then Some v else get rest key
  end.

(** [ast.policy : string[][]] *)
Record Assertion : Type := {
  policy : list (list string)
}.

(** [model.model : Map<string, Map<string, Assertion>>] *)
Record Model : Type := {
  model : Map (Map Assertion)
}.

End Casbin.

(** ** The adapter ([src/adapter.ts]) *)

(** [FilterOptions]: an absent field is [undefined]. *)
Module FilterOptions.
Record t : Type := {
  ptype : option string;
  v0 : option string;
  v1 : option string;
  v2 : option string;
  v3 : option string;
  v4 : option string;
  v5 : option string
}.
End FilterOptions.

(** The fields of the class.  [table] only names the columns, which are the
    same in the three schemas of [casbinRule.ts]; [db] stands for the
    database reached through the handle. *)
Record DrizzleAdapter : Type := {
  db : Drizzle.Db;
  filtered : bool
}.

(** [await this.db. ...]: run a statement on the adapter's database. *)
Definition await {A : Type} (m : Async Drizzle.Db A) : Async DrizzleAdapter A :=
  fun this =>
    let (o, d) := m (db this) in (o, {| db := d; filtered := filtered this |}).

(** A method that receives the model works on the adapter and on the model
    it was given. *)
Definition on_this {A : Type} (m : Async DrizzleAdapter A)
  : Async (DrizzleAdapter * Casbin.Model) A :=
  fun s => let (o, this) := m (fst s) in (o, (this, snd s)).

Definition on_model {A : Type} (m : Async Casbin.Model A)
  : Async (DrizzleAdapter * Casbin.Model) A :=
  fun s => let (o, model) := m (snd s) in (o, (fst s, model)).

(** [private constructor] and [newAdapter]: [filtered = false]. *)
Definition newAdapter (db : Drizzle.Db) : DrizzleAdapter :=
  {| db := db; filtered := false |}.

Definition isFiltered (this : DrizzleAdapter) : bool := filtered this.

(** The text [loadPolicyLine] computes in [result]. *)
Definition loadPolicyLine_result (line : NewCasbinRule) : string :=
  (js_string (ptype line) ++ ", " ++
   String.concat ", "
     (map (fun n => dquote ++ js_string n ++ dquote)
        (filter (fun n => truthy_opt n)
           [v0 line; v1 line; v2 line; v3 line; v4 line; v5 line])))%string.

Definition savePolicyLine (ptype : string) (rule : list string) : NewCasbinRule :=
  {| ptype := Some ptype;
     v0 := if (0 <? List.length rule)%nat then nth_error rule 0 else None;
     v1 := if (1 <? List.length rule)%nat then nth_error rule 1 else None;
     v2 := if (2 <? List.length rule)%nat then nth_error rule 2 else None;
     v3 := if (3 <? List.length rule)%nat then nth_error rule 3 else None;
     v4 := if (4 <? List.length rule)%nat then nth_error rule 4 else None;
     v5 := if (5 <? List.length rule)%nat then nth_error rule 5 else None |}.

(** The two loops of [savePolicy] over one section of the model. *)
Definition savePolicy_section (astMap : option (Casbin.Map Casbin.Assertion))
    (lines : list NewCasbinRule) : list NewCasbinRule :=
  match astMap with
  | Some astMap =>
      fold_left
        (fun lines entry =>
           let '(ptype, ast) := entry in
           fold_left (fun lines rule => push lines (savePolicyLine ptype rule))
             (Casbin.policy ast) lines)
        astMap lines
  | None => lines
  end.

(** The conditions of [updatePolicy]. *)
Definition updatePolicy_conditions (ptype : string) (oldLine : NewCasbinRule)
  : list Drizzle.SQL :=
  let conditions := [Drizzle.eq Drizzle.col_ptype ptype] in
  let conditions :=
    match v0 oldLine with
    | Some x => push conditions (Drizzle.eq Drizzle.col_v0 x) | None => conditions end in
  let conditions :=
    match v1 oldLine with
    | Some x => push conditions (Drizzle.eq Drizzle.col_v1 x) | None => conditions end in
  let conditions :=
    match v2 oldLine with
    | Some x => push conditions (Drizzle.eq Drizzle.col_v2 x) | None => conditions end in
  let conditions :=
    match v3 oldLine with
    | Some x => push conditions (Drizzle.eq Drizzle.col_v3 x) | None => conditions end in
  let conditions :=
    match v4 oldLine with
    | Some x => push conditions (Drizzle.eq Drizzle.col_v4 x) | None => conditions end in
  let conditions :=
    match v5 oldLine with
    | Some x => push conditions (Drizzle.eq Drizzle.col_v5 x) | None => conditions end in
  conditions.

(** The conditions of [removePolicy]. *)
Definition removePolicy_conditions (ptype : string) (line : NewCasbinRule)
  : list Drizzle.SQL :=
  let conditions := [Drizzle.eq Drizzle.col_ptype ptype] in
  let conditions :=
    match v0 line with
    | Some x => push conditions (Drizzle.eq Drizzle.col_v0 x) | None => conditions end in
  let conditions :=
    match v1 line with
    | Some x => push conditions (Drizzle.eq Drizzle.col_v1 x) | None => conditions end in
  let conditions :=
    match v2 line with
    | Some x => push conditions (Drizzle.eq Drizzle.col_v2 x) | None => conditions end in
  let conditions :=
    match v3 line with
    | Some x => push conditions (Drizzle.eq Drizzle.col_v3 x) | None => conditions end in
  let conditions :=
    match v4 line with
    | Some x => push conditions (Drizzle.eq Drizzle.col_v4 x) | None => conditions end in
  let conditions :=
    match v5 line with
    | Some x => push conditions (Drizzle.eq Drizzle.col_v5 x) | None => conditions end in
  conditions.

(** The conditions of [loadFilteredPolicy]. *)
Definition loadFilteredPolicy_conditions (filter : FilterOptions.t)
  : list Drizzle.SQL :=
  let conditions := [] in
  let conditions :=
    match FilterOptions.ptype filter with
    | Some x => push conditions (Drizzle.eq Drizzle.col_ptype x) | None => conditions end in
  let conditions :=
    match FilterOptions.v0 filter with
    | Some x => push conditions (Drizzle.eq Drizzle.col_v0 x) | None => conditions end in
  let conditions :=
    match FilterOptions.v1 filter with
    | Some x => push conditions (Drizzle.eq Drizzle.col_v1 x) | None => conditions end in
  let conditions :=
    match FilterOptions.v2 filter with
    | Some x => push conditions (Drizzle.eq Drizzle.col_v2 x) | None => conditions end in
  let conditions :=
    match FilterOptions.v3 filter with
    | Some x => push conditions (Drizzle.eq Drizzle.col_v3 x) | None => conditions end in
  let conditions :=
    match FilterOptions.v4 filter with
    | Some x => push conditions (Drizzle.eq Drizzle.col_v4 x) | None => conditions end in
  let conditions :=
    match FilterOptions.v5 filter with
    | Some x => push conditions (Drizzle.eq Drizzle.col_v5 x) | None => conditions end in
  conditions.

(** The loop of [removeFilteredPolicy]; [rest] is [fieldValues] from
    position [i] on.  [fieldIndex] is a JavaScript number: the [switch]
    compares [fieldIndex + i] with the literals 0..5, so a value that is not
    one of these six integers adds no condition. *)
Fixpoint removeFilteredPolicy_for (fieldIndex : Z) (i : nat) (rest : list string)
    (conditions : list Drizzle.SQL) : list Drizzle.SQL :=
  match rest with
  | [] => conditions
  | value :: rest' =>
      let fieldIdx := (fieldIndex + Z.of_nat i)%Z in
      let conditions :=
        if truthy value then
          match fieldIdx with
          | 0%Z => push conditions (Drizzle.eq Drizzle.col_v0 value)
          | 1%Z => push conditions (Drizzle.eq Drizzle.col_v1 value)
          | 2%Z => push conditions (Drizzle.eq Drizzle.col_v2 value)
          | 3%Z => push conditions (Drizzle.eq Drizzle.col_v3 value)
          | 4%Z => push conditions (Drizzle.eq Drizzle.col_v4 value)
          | 5%Z => push conditions (Drizzle.eq Drizzle.col_v5 value)
          | _ => conditions
          end
        else conditions in
      removeFilteredPolicy_for fieldIndex (S i) rest' conditions
  end.

Definition removeFilteredPolicy_conditions (ptype : string) (fieldIndex : Z)
    (fieldValues : list string) : list Drizzle.SQL :=
  let conditions := [] in
  let conditions :=
    if truthy ptype then push conditions (Drizzle.eq Drizzle.col_ptype ptype)
    else conditions in
  removeFilteredPolicy_for fieldIndex 0 fieldValues conditions.

Section Adapter.

(** [Helper.loadPolicyLine(line, model)] of the enforcer: it may change the
    model and it may throw. *)
Variable Helper_loadPolicyLine : string -> Async Casbin.Model unit.

Definition loadPolicyLine (line : CasbinRule) : Async Casbin.Model unit :=
  let result := loadPolicyLine_result line in
  Helper_loadPolicyLine result.

Definition loadPolicy : Async (DrizzleAdapter * Casbin.Model) unit :=
  lines <- on_this (await (Drizzle.execute (Drizzle.select_from None))) ;;
  for_each lines (fun line => on_model (loadPolicyLine line)).

Definition loadFilteredPolicy (filter : FilterOptions.t)
  : Async (DrizzleAdapter * Casbin.Model) unit :=
  let conditions := loadFilteredPolicy_conditions filter in
  let query := Drizzle.select_from None in
  let query :=
    if (0 <? List.length conditions)%nat
    then Drizzle.select_from (Drizzle.and conditions)
    else query in
  filteredLines <- on_this (await (Drizzle.execute query)) ;;
  for_each filteredLines (fun line => on_model (loadPolicyLine line)) ;;
  on_this (fun this => (Resolved tt, {| db := db this; filtered := true |})).

Definition savePolicy (model : Casbin.Model) : Async DrizzleAdapter bool :=
  await (Drizzle.execute (Drizzle.delete_from None)) ;;
  let lines := [] in
  let astMap := Casbin.get (Casbin.model model) "p" in
  let lines := savePolicy_section astMap lines in
  let astMap := Casbin.get (Casbin.model model) "g" in
  let lines := savePolicy_section astMap lines in
  (if (0 <? List.length lines)%nat
   then await (Drizzle.execute (Drizzle.insert_values lines)) ;; ret tt
   else ret tt) ;;
  ret true.

Definition addPolicy (sec ptype : string) (rule : list string)
  : Async DrizzleAdapter unit :=
  let line := savePolicyLine ptype rule in
  await (Drizzle.execute (Drizzle.insert_values [line])) ;; ret tt.

Definition addPolicies (sec ptype : string) (rules : list (list string))
  : Async DrizzleAdapter unit :=
  let lines :=
    fold_left (fun lines rule => push lines (savePolicyLine ptype rule)) rules [] in
  if (0 <? List.length lines)%nat
  then await (Drizzle.execute (Drizzle.insert_values lines)) ;; ret tt
  else ret tt.

Definition updatePolicy (sec ptype : string) (oldRule newRule : list string)
  : Async DrizzleAdapter unit :=
  let oldLine := savePolicyLine ptype oldRule in
  let newLine := savePolicyLine ptype newRule in
  let conditions := updatePolicy_conditions ptype oldLine in
  await (Drizzle.execute
           (Drizzle.update_set
              {| ptype := Row.ptype newLine;
                 v0 := v0 newLine; v1 := v1 newLine; v2 := v2 newLine;
                 v3 := v3 newLine; v4 := v4 newLine; v5 := v5 newLine |}
              (Drizzle.and conditions))) ;;
  ret tt.

Definition removePolicy (sec ptype : string) (rule : list string)
  : Async DrizzleAdapter unit :=
  let line := savePolicyLine ptype rule in
  let conditions := removePolicy_conditions ptype line in
  await (Drizzle.execute (Drizzle.delete_from (Drizzle.and conditions))) ;;
  ret tt.

Definition removePolicies (sec ptype : string) (rules : list (list string))
  : Async DrizzleAdapter unit :=
  for_each rules (fun rule => removePolicy sec ptype rule).

Definition removeFilteredPolicy (sec ptype : string) (fieldIndex : Z)
    (fieldValues : list string) : Async DrizzleAdapter unit :=
  let conditions := removeFilteredPolicy_conditions ptype fieldIndex fieldValues in
  if (0 <? List.length conditions)%nat
  then await (Drizzle.execute (Drizzle.delete_from (Drizzle.and conditions))) ;;
       ret tt
  else ret tt.

(** *** Sequences of calls on one adapter *)

Inductive Call : Type :=
| call_isFiltered
| call_loadPolicy (model : Casbin.Model)
| call_loadFilteredPolicy (model : Casbin.Model) (filter : FilterOptions.t)
| call_savePolicy (model : Casbin.Model)
| call_addPolicy (sec ptype : string) (rule : list string)
| call_addPolicies (sec ptype : string) (rules : list (list string))
| call_updatePolicy (sec ptype : string) (oldRule newRule : list string)
| call_removePolicy (sec ptype : string) (rule : list string)
| call_removePolicies (sec ptype : string) (rules : list (list string))
| call_removeFilteredPolicy (sec ptype : string) (fieldIndex : Z)
    (fieldValues : list string).

(** Forget the value a call settles with. *)
Definition settles {S A : Type} (r : Outcome A * S) : bool * S :=
  (resolved (fst r), snd r).

(** One call: whether it completed, and the adapter afterwards. *)
Definition invoke (c : Call) (this : DrizzleAdapter) : bool * DrizzleAdapter :=
  match c with
  | call_isFiltered => (true, this)
  | call_loadPolicy model =>
      let r := loadPolicy (this, model) in (resolved (fst r), fst (snd r))
  | call_loadFilteredPolicy model filter =>
      let r := loadFilteredPolicy filter (this, model) in
      (resolved (fst r), fst (snd r))
  | call_savePolicy model => settles (savePolicy model this)
  | call_addPolicy sec ptype rule => settles (addPolicy sec ptype rule this)
  | call_addPolicies sec ptype rules => settles (addPolicies sec ptype rules this)
  | call_updatePolicy sec ptype oldRule newRule =>
      settles (updatePolicy sec ptype oldRule newRule this)
  | call_removePolicy sec ptype rule => settles (removePolicy sec ptype rule this)
  | call_removePolicies sec ptype rules =>
      settles (removePolicies sec ptype rules this)
  | call_removeFilteredPolicy sec ptype fieldIndex fieldValues =>
      settles (removeFilteredPolicy sec ptype fieldIndex fieldValues this)
  end.

(** A sequence of calls: the completion of each, in order, and the adapter
    at the end. *)
Fixpoint run (calls : list Call) (this : DrizzleAdapter)
  : list bool * DrizzleAdapter :=
  match calls with
  | [] => ([], this)
  | c :: rest =>
      let (done, this') := invoke c this in
      let (dones, final) := run rest this' in
      (done :: dones, final)
  end.

End Adapter.

(** ** Vocabulary of the specification *)

(** The six value columns, in order. *)
Definition v_columns : list Drizzle.Column :=
  [Drizzle.col_v0; Drizzle.col_v1; Drizzle.col_v2;
   Drizzle.col_v3; Drizzle.col_v4; Drizzle.col_v5].

(** Column [v_i] of a row; there is no such column for [i] above 5. *)
Definition v_ (i : nat) (r : NewCasbinRule) : option string :=
  match nth_error v_columns i with
  | Some c => Drizzle.column_value c r
  | None => None
  end.

(** The positional encoding of a tuple: [ptype], tuple index [i] in column
    [v_i], and null where the tuple has no position [i]. *)
Definition encodes (ptype : string) (rule : list string) (line : NewCasbinRule) : Prop :=
  Row.ptype line = Some ptype /\
  forall i, i < 6 -> v_ i line = nth_error rule i.

(** A row matches a tuple: same [ptype], and [v_i] equals the tuple's
    field [i] for every [i] below the tuple's length. *)
Definition matches_tuple (ptype : string) (rule : list string) (r : NewCasbinRule) : Prop :=
  Row.ptype r = Some ptype /\
  forall i, i < List.length rule -> v_ i r = nth_error rule i.

(** One equality per non-null value column of an encoded line, after the
    equality on [ptype]. *)
Definition clauses_of (ptype : string) (line : NewCasbinRule) : list Drizzle.SQL :=
  Drizzle.eq Drizzle.col_ptype ptype ::
  flat_map
    (fun c =>
       match Drizzle.column_value c line with
       | Some x => [Drizzle.eq c x]
       | None => []
       end)
    v_columns.

(** The row has the given [ptype]. *)
Definition ptype_is (ptype : string) (r : NewCasbinRule) : bool :=
  match Row.ptype r with
  | Some p => (p =? ptype)%string
  | None => false
  end.

(** The case of the [switch] in [removeFilteredPolicy] that an index
    selects. *)
Definition switch_case (fieldIdx : Z) : option Drizzle.Column :=
  match fieldIdx with
  | 0%Z => Some Drizzle.col_v0
  | 1%Z => Some Drizzle.col_v1
  | 2%Z => Some Drizzle.col_v2
  | 3%Z => Some Drizzle.col_v3
  | 4%Z => Some Drizzle.col_v4
  | 5%Z => Some Drizzle.col_v5
  | _ => None
  end.

(** The predicate a filtered remove is specified to use: equality on
    [ptype] when the given [ptype] is not empty, and for each supplied
    non-empty value at position [i], equality on column [v_(fieldIndex+i)]
    when [fieldIndex + i] lies in 0..5. *)
Definition filter_selects (ptype : string) (fieldIndex : Z) (fieldValues : list string)
    (r : NewCasbinRule) : Prop :=
  (ptype <> "" -> Row.ptype r = Some ptype) /\
  (forall i value,
      nth_error fieldValues i = Some value -> value <> "" ->
      (0 <= fieldIndex + Z.of_nat i <= 5)%Z ->
      v_ (Z.to_nat (fieldIndex + Z.of_nat i)) r = Some value).

(** Some clause is effective: the [ptype] is not empty, or some supplied
    value is not empty and sits at an index in 0..5. *)
Definition effective_clause (ptype : string) (fieldIndex : Z) (fieldValues : list string)
  : Prop :=
  ptype <> "" \/
  exists i value,
    nth_error fieldValues i = Some value /\ value <> "" /\
    (0 <= fieldIndex + Z.of_nat i <= 5)%Z.

(** No clause is effective: the [ptype] is empty and every supplied value is
    empty or sits at an index outside 0..5 (in particular when no value is
    supplied). *)
Definition no_effective_clause (ptype : string) (fieldIndex : Z)
    (fieldValues : list string) : Prop :=
  ptype = "" /\
  forall i value,
    nth_error fieldValues i = Some value ->
    value = "" \/ ~ (0 <= fieldIndex + Z.of_nat i <= 5)%Z.

(** What a filtered remove is specified to do to the table: the call
    resolves and the rows deleted are exactly those that [filter_selects]. *)
Definition deletes_exactly_selected (sec ptype : string) (fieldIndex : Z)
    (fieldValues : list string) (this : DrizzleAdapter) : Prop :=
  exists (this' : DrizzleAdapter) (keep : CasbinRule -> bool),
    removeFilteredPolicy sec ptype fieldIndex fieldValues this = (Resolved tt, this') /\
    Drizzle.rows (db this') = filter keep (Drizzle.rows (db this)) /\
    (forall r : CasbinRule,
        keep r = false <-> filter_selects ptype fieldIndex fieldValues r).

(** The rule tuples of one section of the model, each with its [ptype], in
    the iteration order of the model. *)
Definition section_rules (astMap : option (Casbin.Map Casbin.Assertion))
  : list (string * list string) :=
  match astMap with
  | Some astMap =>
      flat_map (fun entry => map (fun rule => (fst entry, rule)) (Casbin.policy (snd entry)))
        astMap
  | None => []
  end.

(** The rule tuples of the model: the plain-policy family, then the
    grouping family. *)
Definition model_rules (model : Casbin.Model) : list (string * list string) :=
  section_rules (Casbin.get (Casbin.model model) "p")
  ++ section_rules (Casbin.get (Casbin.model model) "g").

(** The fields of a filter, each with the column it constrains. *)
Definition filter_fields (filter : FilterOptions.t)
  : list (option string * Drizzle.Column) :=
  [(FilterOptions.ptype filter, Drizzle.col_ptype);
   (FilterOptions.v0 filter, Drizzle.col_v0);
   (FilterOptions.v1 filter, Drizzle.col_v1);
   (FilterOptions.v2 filter, Drizzle.col_v2);
   (FilterOptions.v3 filter, Drizzle.col_v3);
   (FilterOptions.v4 filter, Drizzle.col_v4);
   (FilterOptions.v5 filter, Drizzle.col_v5)].

(** A row satisfies a filter: one equality per defined field. *)
Definition filter_matches (filter : FilterOptions.t) (r : NewCasbinRule) : Prop :=
  forall (x : string) (c : Drizzle.Column),
    In (Some x, c) (filter_fields filter) -> Drizzle.column_value c r = Some x.

(** The filter with every field undefined. *)
Definition no_filter : FilterOptions.t :=
  {| FilterOptions.ptype := None;
     FilterOptions.v0 := None; FilterOptions.v1 := None; FilterOptions.v2 := None;
     FilterOptions.v3 := None; FilterOptions.v4 := None; FilterOptions.v5 := None |}.

(** A call of [loadFilteredPolicy] that completed. *)
Definition completed_loadFilteredPolicy (c : Call) (done : bool) : bool :=
  match c with
  | call_loadFilteredPolicy _ _ => done
  | _ => false
  end.

(** A method leaves the filtered flag as it found it. *)
Definition keeps_flag {A : Type} (m : Async DrizzleAdapter A) : Prop :=
  forall this : DrizzleAdapter, filtered (snd (m this)) = filtered this.

(** The non-null values of the columns [v0] .. [v5] of a row, in order. *)
Definition stored_values (line : NewCasbinRule) : list string :=
  flat_map
    (fun c =>
       match Drizzle.column_value c line with
       | Some s => [s]
       | None => []
       end)
    v_columns.

(** The line of a tuple, as the enforcer reads policy lines: the [ptype],
    then every field between double quotes, separated by a comma and a
    space. *)
Definition policy_text (ptype : string) (rule : list string) : string :=
  (ptype ++ ", " ++ String.concat ", " (map (fun s => dquote ++ s ++ dquote) rule))%string.

(** What the round trip of a tuple is specified to be: [addPolicy] resolves,
    and a following [loadPolicy] hands the enforcer, after the lines of the
    rows that were stored before, the line of the tuple as it was given. *)
Definition round_trips (Helper_loadPolicyLine : string -> Async Casbin.Model unit)
    (sec ptype : string) (rule : list string) (this : DrizzleAdapter)
    (model : Casbin.Model) : Prop :=
  exists this1 : DrizzleAdapter,
    addPolicy sec ptype rule this = (Resolved tt, this1) /\
    fst (loadPolicy Helper_loadPolicyLine (this1, model))
    = fst (for_each
             (map (fun r : CasbinRule => loadPolicyLine_result r) (Drizzle.rows (db this))
              ++ [policy_text ptype rule])
             Helper_loadPolicyLine model) /\
    snd (snd (loadPolicy Helper_loadPolicyLine (this1, model)))
    = snd (for_each
             (map (fun r : CasbinRule => loadPolicyLine_result r) (Drizzle.rows (db this))
              ++ [policy_text ptype rule])
             Helper_loadPolicyLine model).

(** The predicate [removePolicy] puts in its delete for a tuple. *)
Definition tuple_where (ptype : string) (rule : list string) : option Drizzle.SQL :=
  Drizzle.and (removePolicy_conditions ptype (savePolicyLine ptype rule)).

(** The row is selected by the predicate of one of the tuples. *)
Definition removed_by (ptype : string) (rules : list (list string))
    (r : NewCasbinRule) : bool :=
  existsb (fun rule => Drizzle.selected (tuple_where ptype rule) r) rules.

(** A method only deletes: the table afterwards is the table before without
    some of its rows, the others unchanged and in order. *)
Definition only_deletes {A : Type} (m : Async DrizzleAdapter A) : Prop :=
  forall this : DrizzleAdapter,
  exists keep : CasbinRule -> bool,
    Drizzle.rows (db (snd (m this))) = filter keep (Drizzle.rows (db this)).

(** The double quote (code 34), the one character of [dquote]. *)
Definition dquote_char : ascii := ascii_of_nat 34.

(** The character occurs in the text. *)
Fixpoint contains (c : ascii) (s : string) : bool :=
  match s with
  | EmptyString => false
  | String c' rest => Ascii.eqb c' c || contains c rest
  end.

(** The text before the first comma, and the text from that comma on. *)
Fixpoint before_comma (s : string) : string * string :=
  match s with
  | EmptyString => (EmptyString, EmptyString)
  | String c rest =>
      if Ascii.eqb c ","%char then (EmptyString, s)
      else let (head, tail) := before_comma rest in (String c head, tail)
  end.

(** The quoted fields of a text; [field] is the text of the field being
    read, or [None] between two fields.  A field left open at the end of the
    text is not a field. *)
Fixpoint read_fields (field : option string) (s : string) : list string :=
  match s with
  | EmptyString => []
  | String c rest =>
      match field with
      | None =>
          if Ascii.eqb c dquote_char then read_fields (Some EmptyString) rest
          else read_fields None rest
      | Some text =>
          if Ascii.eqb c dquote_char then text :: read_fields None rest
          else read_fields (Some (text ++ String c EmptyString)%string) rest
      end
  end.

(** Modelled from the spec: the enforcer's line-installation entry point
    ([Helper.loadPolicyLine]) is not part of this repository; the
    specification gives the format of the line it accepts,
    [<ptype>, "<v0>", "<v1>", ...].  [read_line] reads a line of that
    format: the type is the text before the first comma, and the fields are
    the texts between successive pairs of double quotes after it. *)
Definition read_line (line : string) : string * list string :=
  let (ptype, rest) := before_comma line in (ptype, read_fields None rest).

(** What the round trip of a tuple is specified to be: [addPolicy] resolves,
    a following [loadPolicy] hands the enforcer, after the lines of the rows
    that were stored before, one line for the new row, and this line reads
    as the original type with a tuple equal to the original one. *)
Definition reconstructs_tuple (Helper_loadPolicyLine : string -> Async Casbin.Model unit)
    (sec ptype : string) (rule : list string) (this : DrizzleAdapter)
    (model : Casbin.Model) : Prop :=
  exists this1 : DrizzleAdapter,
    addPolicy sec ptype rule this = (Resolved tt, this1) /\
    fst (loadPolicy Helper_loadPolicyLine (this1, model))
    = fst (for_each
             (map (fun r : CasbinRule => loadPolicyLine_result r) (Drizzle.rows (db this))
              ++ [loadPolicyLine_result (savePolicyLine ptype rule)])
             Helper_loadPolicyLine model) /\
    snd (snd (loadPolicy Helper_loadPolicyLine (this1, model)))
    = snd (for_each
             (map (fun r : CasbinRule => loadPolicyLine_result r) (Drizzle.rows (db this))
              ++ [loadPolicyLine_result (savePolicyLine ptype rule)])
             Helper_loadPolicyLine model) /\
    read_line (loadPolicyLine_result (savePolicyLine ptype rule)) = (ptype, rule).

(** The call is a [loadFilteredPolicy]. *)
Definition is_loadFilteredPolicy (c : Call) : bool :=
  match c with
  | call_loadFilteredPolicy _ _ => true
  | _ => false
  end.

(** On a database that rejects nothing, the method completes, and the
    database still rejects nothing afterwards. *)
Definition completes {A : Type} (m : Async DrizzleAdapter A) : Prop :=
  forall this : DrizzleAdapter,
    Drizzle.faults (db this) = [] ->
    resolved (fst (m this)) = true /\ Drizzle.faults (db (snd (m this))) = [].

(** ** Example data: the policy of [examples/rbac_policy.csv] used by the
    tests, stored by a fresh adapter *)

Definition example_lines : list NewCasbinRule :=
  [savePolicyLine "p" ["alice"; "data1"; "read"];
   savePolicyLine "p" ["bob"; "data2"; "write"];
   savePolicyLine "p" ["data2_admin"; "data2"; "read"];
   savePolicyLine "p" ["data2_admin"; "data2"; "write"];
   savePolicyLine "g" ["alice"; "data2_admin"]].

Definition example_db : Drizzle.Db :=
  {| Drizzle.rows := Drizzle.stored 1 example_lines;
     Drizzle.next_id := 6;
     Drizzle.journal := [];
     Drizzle.faults := [] |}.

Definition example_adapter : DrizzleAdapter := newAdapter example_db.

Definition empty_db : Drizzle.Db :=
  {| Drizzle.rows := []; Drizzle.next_id := 1;
     Drizzle.journal := []; Drizzle.faults := [] |}.

(** The model the tests save: [examples/rbac_policy.csv] loaded under
    [examples/rbac_model.conf]. *)
Definition example_model : Casbin.Model :=
  {| Casbin.model :=
       [("r", [("r", {| Casbin.policy := [] |})]);
        ("p", [("p", {| Casbin.policy :=
                          [["alice"; "data1"; "read"];
                           ["bob"; "data2"; "write"];
                           ["data2_admin"; "data2"; "read"];
                           ["data2_admin"; "data2"; "write"]] |})]);
        ("g", [("g", {| Casbin.policy := [["alice"; "data2_admin"]] |})]);
        ("e", [("e", {| Casbin.policy := [] |})]);
        ("m", [("m", {| Casbin.policy := [] |})])] |}.

(** A stand-in for the enforcer's parser, for the examples: it never throws
    and keeps every line it was handed, as a key of the model, in order. *)
Definition record_line (line : string) : Async Casbin.Model unit :=
  fun model =>
    (Resolved tt, {| Casbin.model := Casbin.model model ++ [(line, [])] |}).

(** A field that holds double quotes, [x", "y], and a type that holds a
    comma, [p, "x"]. *)
Definition quoted_field_example : string :=
  ("x" ++ dquote ++ ", " ++ dquote ++ "y")%string.

Definition quoted_type_example : string :=
  ("p, " ++ dquote ++ "x" ++ dquote)%string.

(** ** Basic facts about the monad and the database *)

Lemma accepts_succ (n : nat) (fs : list bool) :
  Drizzle.accepts (S n) fs = true ->
  Drizzle.accepts 1 fs = true /\ Drizzle.accepts n (tl fs) = true.
Proof.
  destruct fs as [|f later]; simpl.
  - intros _. split; [reflexivity | destruct n; reflexivity].
  - destruct f; simpl; [discriminate|]. intros H. split; [reflexivity | exact H].
Qed.

Lemma execute_accepted (s : Drizzle.Statement) (d : Drizzle.Db) :
  Drizzle.accepts 1 (Drizzle.faults d) = true ->
  Drizzle.execute s d
  = (Resolved (Drizzle.returned s (Drizzle.rows d)), Drizzle.settled s d).
Proof.
  unfold Drizzle.execute. destruct (Drizzle.faults d) as [|[|] later]; simpl;
    intros H; try discriminate; reflexivity.
Qed.

Lemma await_accepted (s : Drizzle.Statement) (this : DrizzleAdapter) :
  Drizzle.accepts 1 (Drizzle.faults (db this)) = true ->
  await (Drizzle.execute s) this
  = (Resolved (Drizzle.returned s (Drizzle.rows (db this))),
     {| db := Drizzle.settled s (db this); filtered := filtered this |}).
Proof.
  intros H. unfold await. rewrite (execute_accepted s (db this) H). reflexivity.
Qed.

Lemma await_filtered {A : Type} (m : Async Drizzle.Db A) (this : DrizzleAdapter) :
  filtered (snd (await m this)) = filtered this.
Proof.
  unfold await. destruct (m (db this)) as [o d]. reflexivity.
Qed.

Lemma holds_eq (c : Drizzle.Column) (value : string) (r : NewCasbinRule) :
  Drizzle.holds (Drizzle.eq c value) r = true <-> Drizzle.column_value c r = Some value.
Proof.
  simpl. destruct (Drizzle.column_value c r) as [s|].
  - rewrite String.eqb_eq. split; congruence.
  - split; discriminate.
Qed.

Lemma Forall2_map_self {A : Type} (P : A -> A -> Prop) (f : A -> A) (l : list A) :
  (forall x, In x l -> P x (f x)) -> Forall2 P l (map f l).
Proof.
  induction l as [|x l IH]; simpl; intros H; constructor.
  - apply H. left. reflexivity.
  - apply IH. intros y Hy. apply H. right. exact Hy.
Qed.

Lemma filter_none {A : Type} (f : A -> bool) (l : list A) :
  (forall x, f x = false) -> filter f l = [].
Proof.
  intros H. induction l as [|x l IH]; simpl; [reflexivity|].
  rewrite H. exact IH.
Qed.

Lemma filter_none_in {A : Type} (f : A -> bool) (l : list A) :
  (forall x, In x l -> f x = false) -> filter f l = [].
Proof.
  induction l as [|x l IH]; intros H; cbn [filter]; [reflexivity|].
  rewrite H by (left; reflexivity). apply IH. intros y Hy. apply H. right. exact Hy.
Qed.

Lemma map_unchanged {A : Type} (f : A -> A) (l : list A) :
  (forall x, In x l -> f x = x) -> map f l = l.
Proof.
  induction l as [|x l IH]; simpl; intros H; [reflexivity|].
  rewrite H by (left; reflexivity). f_equal. apply IH.
  intros y Hy. apply H. right. exact Hy.
Qed.

(** *** The encoding of a tuple *)

Lemma savePolicyLine_v (ptype : string) (rule : list string) (i : nat) :
  i < 6 -> v_ i (savePolicyLine ptype rule) = nth_error rule i.
Proof.
  intros Hi.
  assert (E : forall k, (if (k <? List.length rule)%nat then nth_error rule k else None)
                        = nth_error rule k).
  { intros k. destruct (k <? List.length rule)%nat eqn:Hk; [reflexivity|].
    apply Nat.ltb_ge in Hk. symmetry. apply nth_error_None. exact Hk. }
  do 6 (destruct i as [|i]; [unfold v_; simpl; apply E|]). lia.
Qed.

Lemma savePolicyLine_encodes (ptype : string) (rule : list string) :
  encodes ptype rule (savePolicyLine ptype rule).
Proof.
  split; [reflexivity|]. intros i Hi. apply savePolicyLine_v. exact Hi.
Qed.

(** *** The clauses built by [updatePolicy] and [removePolicy] *)

Lemma updatePolicy_conditions_clauses (ptype : string) (line : NewCasbinRule) :
  updatePolicy_conditions ptype line = clauses_of ptype line.
Proof.
  destruct line as [p [a|] [b|] [c|] [d|] [e|] [f|]]; reflexivity.
Qed.

Lemma removePolicy_conditions_clauses (ptype : string) (line : NewCasbinRule) :
  removePolicy_conditions ptype line = clauses_of ptype line.
Proof.
  destruct line as [p [a|] [b|] [c|] [d|] [e|] [f|]]; reflexivity.
Qed.

Lemma v_some_column (i : nat) (r : NewCasbinRule) (x : string) :
  v_ i r = Some x <->
  exists c, nth_error v_columns i = Some c /\ Drizzle.column_value c r = Some x.
Proof.
  unfold v_. destruct (nth_error v_columns i) as [c|].
  - split.
    + intros H. exists c. split; [reflexivity | exact H].
    + intros (c' & Hc & Hx). injection Hc as <-. exact Hx.
  - split; [discriminate | intros (c' & Hc & _); discriminate].
Qed.

Lemma v_none_above (i : nat) (r : NewCasbinRule) : 6 <= i -> v_ i r = None.
Proof.
  intros Hi. unfold v_.
  assert (E : nth_error v_columns i = None) by (apply nth_error_None; simpl; lia).
  rewrite E. reflexivity.
Qed.

Lemma value_clauses_hold (line r : NewCasbinRule) (cols : list Drizzle.Column) :
  forallb (fun c => Drizzle.holds c r)
    (flat_map
       (fun c =>
          match Drizzle.column_value c line with
          | Some x => [Drizzle.eq c x]
          | None => []
          end) cols) = true
  <-> (forall c x, In c cols -> Drizzle.column_value c line = Some x ->
                   Drizzle.column_value c r = Some x).
Proof.
  induction cols as [|c cols IH].
  - simpl. split; [intros _ c x [] | reflexivity].
  - cbn [flat_map]. rewrite forallb_app, andb_true_iff, IH. split.
    + intros [Hc Hrest] c' x [<-|Hin] Hx.
      * rewrite Hx in Hc. cbn [forallb] in Hc. rewrite andb_true_r in Hc.
        apply holds_eq. exact Hc.
      * exact (Hrest c' x Hin Hx).
    + intros H. split.
      * destruct (Drizzle.column_value c line) as [x|] eqn:Hx; [|reflexivity].
        cbn [forallb]. rewrite andb_true_r. apply holds_eq.
        apply H; [left; reflexivity | exact Hx].
      * intros c' x Hin Hx. apply H; [right; exact Hin | exact Hx].
Qed.

Lemma clauses_hold (ptype : string) (line r : NewCasbinRule) :
  Drizzle.selected (Drizzle.and (clauses_of ptype line)) r = true
  <-> Row.ptype r = Some ptype /\
      (forall i x, v_ i line = Some x -> v_ i r = Some x).
Proof.
  unfold clauses_of. cbn [Drizzle.and Drizzle.selected].
  match goal with
  | |- Drizzle.holds (Drizzle.conj (?c :: ?cs)) r = true <-> _ =>
      change (Drizzle.holds (Drizzle.conj (c :: cs)) r)
        with (Drizzle.holds c r && forallb (fun c' => Drizzle.holds c' r) cs)
  end.
  rewrite andb_true_iff, value_clauses_hold.
  rewrite holds_eq. cbn [Drizzle.column_value]. split.
  - intros [Hp Hv]. split; [exact Hp|]. intros i x Hx.
    apply v_some_column in Hx. destruct Hx as (c & Hc & Hx).
    apply v_some_column. exists c. split; [exact Hc|].
    apply Hv; [apply nth_error_In with i; exact Hc | exact Hx].
  - intros [Hp Hv]. split; [exact Hp|]. intros c x Hin Hx.
    apply In_nth_error in Hin. destruct Hin as [i Hc].
    assert (Hr : v_ i r = Some x).
    { apply Hv. apply v_some_column. exists c. split; assumption. }
    apply v_some_column in Hr. destruct Hr as (c' & Hc' & Hr).
    rewrite Hc in Hc'. injection Hc' as <-. exact Hr.
Qed.

(** For a tuple of at most six fields, the clauses built from its encoding
    select exactly the rows that match the tuple. *)
Lemma selected_matches (ptype : string) (rule : list string) (r : NewCasbinRule) :
  List.length rule <= 6 ->
  (Drizzle.selected (Drizzle.and (clauses_of ptype (savePolicyLine ptype rule))) r = true
   <-> matches_tuple ptype rule r).
Proof.
  intros Hlen. rewrite clauses_hold. unfold matches_tuple. split.
  - intros [Hp Hv]. split; [exact Hp|]. intros i Hi.
    destruct (nth_error rule i) as [x|] eqn:Hx.
    + apply Hv. rewrite savePolicyLine_v by lia. exact Hx.
    + apply nth_error_None in Hx. lia.
  - intros [Hp Hv]. split; [exact Hp|]. intros i x Hx.
    destruct (Nat.lt_ge_cases i 6) as [Hi|Hi].
    + rewrite savePolicyLine_v in Hx by exact Hi.
      assert (Hi' : i < List.length rule).
      { apply nth_error_Some. rewrite Hx. discriminate. }
      rewrite (Hv i Hi'). exact Hx.
    + rewrite v_none_above in Hx by exact Hi. discriminate.
Qed.

(** *** The clauses built by [removeFilteredPolicy] *)

Lemma truthy_nonempty (value : string) : truthy value = true <-> value <> "".
Proof.
  unfold truthy. rewrite negb_true_iff. split.
  - intros H E. apply String.eqb_eq in E. congruence.
  - intros H. apply String.eqb_neq. exact H.
Qed.

Lemma switch_case_range (idx : Z) (c : Drizzle.Column) :
  switch_case idx = Some c <->
  (0 <= idx <= 5)%Z /\ nth_error v_columns (Z.to_nat idx) = Some c.
Proof.
  split.
  - destruct idx as [|p|p]; try discriminate.
    + intros H. injection H as <-. split; [lia | reflexivity].
    + destruct p as [[[q|q|]|[q|q|]|]|[[q|q|]|[q|q|]|]|]; try discriminate;
        intros H; injection H as <-; (split; [lia | reflexivity]).
  - intros [Hrange Hc].
    assert (E : idx = 0%Z \/ idx = 1%Z \/ idx = 2%Z \/ idx = 3%Z \/ idx = 4%Z
                \/ idx = 5%Z) by lia.
    destruct E as [->|[->|[->|[->|[->| ->]]]]]; exact Hc.
Qed.

Lemma switch_case_none (idx : Z) :
  switch_case idx = None <-> ~ (0 <= idx <= 5)%Z.
Proof.
  split.
  - intros H Hrange.
    assert (E : idx = 0%Z \/ idx = 1%Z \/ idx = 2%Z \/ idx = 3%Z \/ idx = 4%Z
                \/ idx = 5%Z) by lia.
    destruct E as [->|[->|[->|[->|[->| ->]]]]]; discriminate.
  - intros H. destruct (switch_case idx) as [c|] eqn:E; [|reflexivity].
    apply switch_case_range in E. tauto.
Qed.

(** One turn of the loop adds the clause of the selected case, if any. *)
Lemma removeFilteredPolicy_for_step (fieldIndex : Z) (i : nat) (value : string)
    (rest : list string) (conditions : list Drizzle.SQL) :
  removeFilteredPolicy_for fieldIndex i (value :: rest) conditions
  = removeFilteredPolicy_for fieldIndex (S i) rest
      (conditions ++
         (if truthy value then
            match switch_case (fieldIndex + Z.of_nat i) with
            | Some c => [Drizzle.eq c value]
            | None => []
            end
          else [])).
Proof.
  cbn [removeFilteredPolicy_for]. f_equal.
  destruct (truthy value); [|symmetry; apply app_nil_r].
  unfold switch_case, push.
  destruct (fieldIndex + Z.of_nat i)%Z as [|p|p];
    [reflexivity | | symmetry; apply app_nil_r].
  destruct p as [[[q|q|]|[q|q|]|]|[[q|q|]|[q|q|]|]|];
    first [reflexivity | symmetry; apply app_nil_r].
Qed.

Lemma removeFilteredPolicy_for_acc (fieldIndex : Z) (rest : list string) :
  forall (i : nat) (conditions : list Drizzle.SQL),
    removeFilteredPolicy_for fieldIndex i rest conditions
    = conditions ++ removeFilteredPolicy_for fieldIndex i rest [].
Proof.
  induction rest as [|value rest IH]; intros i conditions.
  - simpl. symmetry. apply app_nil_r.
  - rewrite !removeFilteredPolicy_for_step.
    rewrite IH. rewrite (IH (S i) ([] ++ _)). simpl. symmetry. apply app_assoc.
Qed.

Lemma removeFilteredPolicy_for_nil (fieldIndex : Z) (rest : list string) :
  forall i : nat,
    removeFilteredPolicy_for fieldIndex i rest [] = [] <->
    (forall k value,
        nth_error rest k = Some value ->
        value = "" \/ ~ (0 <= fieldIndex + Z.of_nat (i + k) <= 5)%Z).
Proof.
  induction rest as [|value rest IH]; intros i.
  - simpl. split; [intros _ k value H; destruct k; discriminate | reflexivity].
  - rewrite removeFilteredPolicy_for_step, removeFilteredPolicy_for_acc.
    cbn [app]. split.
    + intros H. apply app_eq_nil in H. destruct H as [Hhead Htail].
      intros [|k] x Hx.
      * cbn in Hx. injection Hx as <-. rewrite Nat.add_0_r.
        destruct (truthy value) eqn:Ht.
        -- right. apply switch_case_none.
           destruct (switch_case (fieldIndex + Z.of_nat i)); [discriminate|reflexivity].
        -- left. destruct (string_dec value "") as [E|E]; [exact E|].
           apply truthy_nonempty in E. congruence.
      * cbn in Hx. replace (i + S k) with (S i + k) by lia.
        exact (proj1 (IH (S i)) Htail k x Hx).
    + intros H.
      assert (Htail : removeFilteredPolicy_for fieldIndex (S i) rest [] = []).
      { apply IH. intros k x Hx. replace (S i + k) with (i + S k) by lia.
        apply H. exact Hx. }
      rewrite Htail, app_nil_r.
      destruct (truthy value) eqn:Ht; [|reflexivity].
      destruct (H 0 value eq_refl) as [E|E].
      * apply truthy_nonempty in Ht. contradiction.
      * rewrite Nat.add_0_r in E. apply switch_case_none in E. rewrite E. reflexivity.
Qed.

Lemma removeFilteredPolicy_for_hold (fieldIndex : Z) (rest : list string)
    (r : NewCasbinRule) :
  forall i : nat,
    forallb (fun c => Drizzle.holds c r) (removeFilteredPolicy_for fieldIndex i rest [])
    = true <->
    (forall k value,
        nth_error rest k = Some value -> value <> "" ->
        (0 <= fieldIndex + Z.of_nat (i + k) <= 5)%Z ->
        v_ (Z.to_nat (fieldIndex + Z.of_nat (i + k))) r = Some value).
Proof.
  induction rest as [|value rest IH]; intros i.
  - simpl. split; [intros _ k value H; destruct k; discriminate | reflexivity].
  - rewrite removeFilteredPolicy_for_step, removeFilteredPolicy_for_acc.
    cbn [app]. rewrite forallb_app, andb_true_iff, IH. split.
    + intros [Hhead Htail] [|k] x Hx Hne Hrange.
      * cbn in Hx. injection Hx as <-. rewrite Nat.add_0_r in *.
        apply truthy_nonempty in Hne. rewrite Hne in Hhead.
        destruct (switch_case (fieldIndex + Z.of_nat i)) as [c|] eqn:Hc.
        -- cbn [forallb] in Hhead. rewrite andb_true_r in Hhead.
           apply holds_eq in Hhead. apply switch_case_range in Hc.
           apply v_some_column. exists c. split; [apply Hc | exact Hhead].
        -- apply switch_case_none in Hc. contradiction.
      * cbn in Hx. replace (i + S k) with (S i + k) in * by lia.
        exact (Htail k x Hx Hne Hrange).
    + intros H. split.
      * destruct (truthy value) eqn:Ht; [|reflexivity].
        destruct (switch_case (fieldIndex + Z.of_nat i)) as [c|] eqn:Hc; [|reflexivity].
        cbn [forallb]. rewrite andb_true_r. apply holds_eq.
        apply switch_case_range in Hc. destruct Hc as [Hrange Hc].
        apply truthy_nonempty in Ht.
        specialize (H 0 value eq_refl Ht). rewrite Nat.add_0_r in H.
        specialize (H Hrange). apply v_some_column in H.
        destruct H as (c' & Hc' & H). rewrite Hc in Hc'. injection Hc' as <-. exact H.
      * intros k x Hx Hne Hrange. replace (S i + k) with (i + S k) in * by lia.
        apply H; assumption.
Qed.

Lemma removeFilteredPolicy_conditions_nil (ptype : string) (fieldIndex : Z)
    (fieldValues : list string) :
  removeFilteredPolicy_conditions ptype fieldIndex fieldValues = [] <->
  no_effective_clause ptype fieldIndex fieldValues.
Proof.
  unfold removeFilteredPolicy_conditions, no_effective_clause.
  rewrite removeFilteredPolicy_for_acc. destruct (truthy ptype) eqn:Ht.
  - split.
    + intros H. discriminate.
    + intros [E _]. apply truthy_nonempty in Ht. contradiction.
  - cbn [app]. rewrite removeFilteredPolicy_for_nil. cbn [Nat.add]. split.
    + intros H. split; [|exact H].
      destruct (string_dec ptype "") as [E|E]; [exact E|].
      apply truthy_nonempty in E. congruence.
    + intros [_ H]. exact H.
Qed.

Lemma removeFilteredPolicy_conditions_hold (ptype : string) (fieldIndex : Z)
    (fieldValues : list string) (r : NewCasbinRule) :
  forallb (fun c => Drizzle.holds c r)
    (removeFilteredPolicy_conditions ptype fieldIndex fieldValues) = true
  <-> filter_selects ptype fieldIndex fieldValues r.
Proof.
  unfold removeFilteredPolicy_conditions, filter_selects.
  rewrite removeFilteredPolicy_for_acc, forallb_app, andb_true_iff.
  rewrite removeFilteredPolicy_for_hold. cbn [Nat.add].
  apply and_iff_compat_r. destruct (truthy ptype) eqn:Ht.
  - unfold push. cbn [app forallb]. rewrite andb_true_r.
    change (match Row.ptype r with
            | Some s => (s =? ptype)%string
            | None => false
            end = true)
      with (Drizzle.holds (Drizzle.eq Drizzle.col_ptype ptype) r = true).
    rewrite holds_eq. cbn [Drizzle.column_value].
    apply truthy_nonempty in Ht. tauto.
  - cbn [forallb]. split; [|reflexivity]. intros _ Hne.
    apply truthy_nonempty in Hne. congruence.
Qed.

Lemma effective_not_empty (ptype : string) (fieldIndex : Z) (fieldValues : list string) :
  effective_clause ptype fieldIndex fieldValues ->
  ~ no_effective_clause ptype fieldIndex fieldValues.
Proof.
  intros [Hp|(i & value & Hv & Hne & Hrange)] [Hempty Hall].
  - contradiction.
  - destruct (Hall i value Hv); contradiction.
Qed.

Lemma removeFilteredPolicy_without_clause (sec ptype : string) (fieldIndex : Z)
    (fieldValues : list string) (this : DrizzleAdapter) :
  no_effective_clause ptype fieldIndex fieldValues ->
  removeFilteredPolicy sec ptype fieldIndex fieldValues this = (Resolved tt, this).
Proof.
  intros H. apply removeFilteredPolicy_conditions_nil in H.
  unfold removeFilteredPolicy. rewrite H. reflexivity.
Qed.

Lemma removeFilteredPolicy_with_clause (sec ptype : string) (fieldIndex : Z)
    (fieldValues : list string) (this : DrizzleAdapter) :
  effective_clause ptype fieldIndex fieldValues ->
  Drizzle.accepts 1 (Drizzle.faults (db this)) = true ->
  deletes_exactly_selected sec ptype fieldIndex fieldValues this.
Proof.
  intros Heff Hacc. apply effective_not_empty in Heff.
  unfold deletes_exactly_selected, removeFilteredPolicy.
  pose proof (removeFilteredPolicy_conditions_hold ptype fieldIndex fieldValues) as Hold.
  destruct (removeFilteredPolicy_conditions ptype fieldIndex fieldValues)
    as [|c cs] eqn:E.
  - exfalso. apply Heff. apply removeFilteredPolicy_conditions_nil. exact E.
  - cbn [List.length Nat.ltb Nat.leb]. unfold bind.
    rewrite await_accepted by exact Hacc.
    exists {| db := Drizzle.settled
                      (Drizzle.delete_from (Drizzle.and (c :: cs))) (db this);
              filtered := filtered this |}.
    exists (fun r : CasbinRule => negb (Drizzle.selected (Drizzle.and (c :: cs)) r)).
    split; [reflexivity|]. split; [reflexivity|].
    intros r. rewrite negb_false_iff. rewrite <- Hold. reflexivity.
Qed.

(** *** [savePolicy] *)

Lemma savePolicy_section_rules (astMap : option (Casbin.Map Casbin.Assertion))
    (lines : list NewCasbinRule) :
  savePolicy_section astMap lines
  = lines ++ map (fun pr => savePolicyLine (fst pr) (snd pr)) (section_rules astMap).
Proof.
  destruct astMap as [astMap|]; simpl; [|symmetry; apply app_nil_r].
  revert lines. induction astMap as [|[ptype ast] astMap IH]; intros lines.
  - simpl. symmetry. apply app_nil_r.
  - cbn [fold_left flat_map fst snd]. rewrite IH, map_app, app_assoc. f_equal.
    generalize (Casbin.policy ast). clear. intros rules. revert lines.
    induction rules as [|rule rules IH]; intros lines.
    + simpl. symmetry. apply app_nil_r.
    + cbn [fold_left map]. rewrite IH. unfold push. rewrite <- app_assoc. reflexivity.
Qed.

Lemma stored_columns (first : nat) (values : list NewCasbinRule) :
  map columns (Drizzle.stored first values) = values.
Proof.
  revert first. induction values as [|v values IH]; intros first; simpl;
    [reflexivity | rewrite IH; reflexivity].
Qed.

(** *** Loading *)

Lemma for_each_on_model (lines : list CasbinRule)
    (f : CasbinRule -> Async Casbin.Model unit) (this : DrizzleAdapter)
    (model : Casbin.Model) :
  for_each lines (fun line => on_model (f line)) (this, model)
  = (fst (for_each lines f model), (this, snd (for_each lines f model))).
Proof.
  revert model. induction lines as [|line lines IH]; intros model.
  - reflexivity.
  - cbn [for_each]. unfold bind. unfold on_model at 1. cbn [fst snd].
    destruct (f line model) as [[[]|] model']; [exact (IH model') | reflexivity].
Qed.

Lemma loadFilteredPolicy_conditions_hold (filter : FilterOptions.t) (r : NewCasbinRule) :
  Drizzle.selected (Drizzle.and (loadFilteredPolicy_conditions filter)) r = true
  <-> filter_matches filter r.
Proof.
  assert (E : loadFilteredPolicy_conditions filter
              = flat_map
                  (fun fc : option string * Drizzle.Column =>
                     match fst fc with
                     | Some x => [Drizzle.eq (snd fc) x]
                     | None => []
                     end) (filter_fields filter)).
  { destruct filter as [[p|] [a|] [b|] [c|] [d|] [e|] [f|]]; reflexivity. }
  rewrite E. unfold filter_matches. generalize (filter_fields filter) as fields.
  intros fields.
  assert (G : Drizzle.selected
                (Drizzle.and
                   (flat_map
                      (fun fc : option string * Drizzle.Column =>
                         match fst fc with
                         | Some x => [Drizzle.eq (snd fc) x]
                         | None => []
                         end) fields)) r
              = forallb (fun c => Drizzle.holds c r)
                  (flat_map
                     (fun fc : option string * Drizzle.Column =>
                        match fst fc with
                        | Some x => [Drizzle.eq (snd fc) x]
                        | None => []
                        end) fields)).
  { destruct (flat_map _ fields); reflexivity. }
  rewrite G. clear G E. induction fields as [|[[x|] c] fields IH].
  - simpl. split; [intros _ x c [] | reflexivity].
  - cbn [flat_map fst snd app]. cbn [forallb]. rewrite andb_true_iff, IH.
    rewrite holds_eq. split.
    + intros [Hc Hrest] y c' [Hin|Hin].
      * injection Hin as <- <-. exact Hc.
      * exact (Hrest y c' Hin).
    + intros H. split.
      * apply H. left. reflexivity.
      * intros y c' Hin. apply H. right. exact Hin.
  - cbn [flat_map fst snd app]. rewrite IH. split.
    + intros H y c' [Hin|Hin]; [discriminate Hin | exact (H y c' Hin)].
    + intros H y c' Hin. apply H. right. exact Hin.
Qed.

(** *** The filtered flag *)

Lemma keeps_flag_ret {A : Type} (a : A) : keeps_flag (ret a).
Proof. intros this. reflexivity. Qed.

Lemma keeps_flag_await {A : Type} (m : Async Drizzle.Db A) : keeps_flag (await m).
Proof. intros this. apply await_filtered. Qed.

Lemma keeps_flag_bind {A B : Type} (m : Async DrizzleAdapter A)
    (k : A -> Async DrizzleAdapter B) :
  keeps_flag m -> (forall a, keeps_flag (k a)) -> keeps_flag (bind m k).
Proof.
  intros Hm Hk this. unfold bind. specialize (Hm this).
  destruct (m this) as [[a|] this']; cbn [snd] in *.
  - rewrite Hk. exact Hm.
  - exact Hm.
Qed.

Lemma keeps_flag_for_each {A : Type} (xs : list A)
    (body : A -> Async DrizzleAdapter unit) :
  (forall x, keeps_flag (body x)) -> keeps_flag (for_each xs body).
Proof.
  intros Hbody. induction xs as [|x xs IH]; cbn [for_each].
  - apply keeps_flag_ret.
  - apply keeps_flag_bind; [apply Hbody | intros _; exact IH].
Qed.

Create HintDb flag.
#[local] Hint Resolve keeps_flag_ret keeps_flag_await keeps_flag_bind
  keeps_flag_for_each : flag.

Lemma savePolicy_keeps_flag (model : Casbin.Model) : keeps_flag (savePolicy model).
Proof.
  unfold savePolicy.
  destruct (0 <? List.length _)%nat; auto 10 with flag.
Qed.

Lemma addPolicy_keeps_flag (sec ptype : string) (rule : list string) :
  keeps_flag (addPolicy sec ptype rule).
Proof. unfold addPolicy. auto with flag. Qed.

Lemma addPolicies_keeps_flag (sec ptype : string) (rules : list (list string)) :
  keeps_flag (addPolicies sec ptype rules).
Proof.
  unfold addPolicies. destruct (0 <? List.length _)%nat; auto with flag.
Qed.

Lemma updatePolicy_keeps_flag (sec ptype : string) (oldRule newRule : list string) :
  keeps_flag (updatePolicy sec ptype oldRule newRule).
Proof. unfold updatePolicy. auto with flag. Qed.

Lemma removePolicy_keeps_flag (sec ptype : string) (rule : list string) :
  keeps_flag (removePolicy sec ptype rule).
Proof. unfold removePolicy. auto with flag. Qed.

Lemma removePolicies_keeps_flag (sec ptype : string) (rules : list (list string)) :
  keeps_flag (removePolicies sec ptype rules).
Proof.
  unfold removePolicies. apply keeps_flag_for_each. intros rule.
  apply removePolicy_keeps_flag.
Qed.

Lemma removeFilteredPolicy_keeps_flag (sec ptype : string) (fieldIndex : Z)
    (fieldValues : list string) :
  keeps_flag (removeFilteredPolicy sec ptype fieldIndex fieldValues).
Proof.
  unfold removeFilteredPolicy. destruct (0 <? List.length _)%nat; auto with flag.
Qed.

Lemma loadPolicy_keeps_flag (H : string -> Async Casbin.Model unit)
    (this : DrizzleAdapter) (model : Casbin.Model) :
  filtered (fst (snd (loadPolicy H (this, model)))) = filtered this.
Proof.
  unfold loadPolicy, bind, on_this. cbn [fst snd].
  pose proof (await_filtered (Drizzle.execute (Drizzle.select_from None)) this) as Hf.
  destruct (await (Drizzle.execute (Drizzle.select_from None)) this)
    as [[lines|] this']; cbn [snd] in Hf.
  - rewrite for_each_on_model. exact Hf.
  - exact Hf.
Qed.

(** [loadFilteredPolicy] sets the flag exactly when it completes. *)
Lemma loadFilteredPolicy_sets_flag (H : string -> Async Casbin.Model unit)
    (filter : FilterOptions.t) (this : DrizzleAdapter) (model : Casbin.Model) :
  filtered (fst (snd (loadFilteredPolicy H filter (this, model))))
  = filtered this || resolved (fst (loadFilteredPolicy H filter (this, model))).
Proof.
  unfold loadFilteredPolicy.
  generalize (if (0 <? List.length (loadFilteredPolicy_conditions filter))%nat
              then Drizzle.select_from (Drizzle.and (loadFilteredPolicy_conditions filter))
              else Drizzle.select_from None) as query.
  intros query. unfold bind, on_this. cbn [fst snd].
  pose proof (await_filtered (Drizzle.execute query) this) as Hf.
  destruct (await (Drizzle.execute query) this) as [[lines|] this']; cbn [snd] in Hf.
  - rewrite for_each_on_model.
    destruct (for_each lines (loadPolicyLine H) model) as [[[]|] model'];
      cbn [fst snd db filtered resolved].
    + symmetry. apply orb_true_r.
    + rewrite orb_false_r. exact Hf.
  - cbn [fst snd resolved]. rewrite orb_false_r. exact Hf.
Qed.

Lemma invoke_flag (H : string -> Async Casbin.Model unit) (c : Call)
    (this : DrizzleAdapter) :
  filtered (snd (invoke H c this))
  = filtered this || completed_loadFilteredPolicy c (fst (invoke H c this)).
Proof.
  destruct c; cbn [invoke completed_loadFilteredPolicy settles fst snd];
    rewrite ?orb_false_r.
  - reflexivity.
  - apply loadPolicy_keeps_flag.
  - apply loadFilteredPolicy_sets_flag.
  - apply savePolicy_keeps_flag.
  - apply addPolicy_keeps_flag.
  - apply addPolicies_keeps_flag.
  - apply updatePolicy_keeps_flag.
  - apply removePolicy_keeps_flag.
  - apply removePolicies_keeps_flag.
  - apply removeFilteredPolicy_keeps_flag.
Qed.

Lemma run_flag (H : string -> Async Casbin.Model unit) (calls : list Call) :
  forall this : DrizzleAdapter,
    filtered (snd (run H calls this))
    = filtered this
      || existsb (fun cd => completed_loadFilteredPolicy (fst cd) (snd cd))
           (combine calls (fst (run H calls this))).
Proof.
  induction calls as [|c calls IH]; intros this.
  - simpl. symmetry. apply orb_false_r.
  - cbn [run]. pose proof (invoke_flag H c this) as Hc.
    destruct (invoke H c this) as [done this']. cbn [fst snd] in Hc.
    specialize (IH this'). destruct (run H calls this') as [dones final].
    cbn [fst snd combine existsb] in *. rewrite IH, Hc. symmetry. apply orb_assoc.
Qed.

(** *** The line of a row *)

Lemma stored_values_savePolicyLine (ptype : string) (rule : list string) :
  List.length rule <= 6 -> stored_values (savePolicyLine ptype rule) = rule.
Proof.
  intros Hlen.
  destruct rule as [|a [|b [|c [|d [|e [|f [|g rest]]]]]]]; try reflexivity.
  simpl in Hlen. lia.
Qed.


Lemma kept_values_text (l : list (option string)) :
  map (fun n => (dquote ++ js_string n ++ dquote)%string) (filter (fun n => truthy_opt n) l)
  = map (fun s => (dquote ++ s ++ dquote)%string)
      (filter truthy
         (flat_map (fun n => match n with Some s => [s] | None => [] end) l)).
Proof.
  induction l as [|[s|] l IH]; cbn [filter flat_map app truthy_opt].
  - reflexivity.
  - destruct (truthy s); cbn [map]; rewrite IH; reflexivity.
  - exact IH.
Qed.

Lemma loadPolicyLine_result_text (line : NewCasbinRule) :
  loadPolicyLine_result line
  = policy_text (js_string (Row.ptype line)) (filter truthy (stored_values line)).
Proof.
  unfold loadPolicyLine_result, policy_text. rewrite kept_values_text. reflexivity.
Qed.


Lemma filter_truthy_all (rule : list string) :
  Forall (fun s => s <> "") rule -> filter truthy rule = rule.
Proof.
  induction 1 as [|s rule Hs _ IH]; cbn [filter]; [reflexivity|].
  apply truthy_nonempty in Hs. rewrite Hs, IH. reflexivity.
Qed.


Lemma for_each_map {S A B : Type} (g : A -> B) (f : B -> Async S unit) (xs : list A) :
  forall s : S, for_each xs (fun x => f (g x)) s = for_each (map g xs) f s.
Proof.
  induction xs as [|x xs IH]; intros s; cbn [for_each map]; [reflexivity|].
  unfold bind. destruct (f (g x) s) as [[[]|] s']; [apply IH | reflexivity].
Qed.

Lemma loadPolicy_accepted (H : string -> Async Casbin.Model unit)
    (this : DrizzleAdapter) (model : Casbin.Model) :
  Drizzle.accepts 1 (Drizzle.faults (db this)) = true ->
  loadPolicy H (this, model)
  = (fst (for_each (map (fun r : CasbinRule => loadPolicyLine_result r)
                      (Drizzle.rows (db this))) H model),
     ({| db := Drizzle.settled (Drizzle.select_from None) (db this);
         filtered := filtered this |},
      snd (for_each (map (fun r : CasbinRule => loadPolicyLine_result r)
                       (Drizzle.rows (db this))) H model))).
Proof.
  intros Hacc. unfold loadPolicy, bind, on_this. cbn [fst snd].
  rewrite await_accepted by exact Hacc. rewrite for_each_on_model.
  cbn [Drizzle.returned Drizzle.selected].
  assert (E : filter (fun _ : CasbinRule => true) (Drizzle.rows (db this))
              = Drizzle.rows (db this)).
  { induction (Drizzle.rows (db this)) as [|r l IH]; cbn [filter];
      [reflexivity | rewrite IH; reflexivity]. }
  rewrite E. unfold loadPolicyLine.
  rewrite (for_each_map (fun r : CasbinRule => loadPolicyLine_result r) H).
  reflexivity.
Qed.

Lemma addPolicy_accepted (sec ptype : string) (rule : list string)
    (this : DrizzleAdapter) :
  Drizzle.accepts 1 (Drizzle.faults (db this)) = true ->
  addPolicy sec ptype rule this
  = (Resolved tt,
     {| db := Drizzle.settled (Drizzle.insert_values [savePolicyLine ptype rule])
                (db this);
        filtered := filtered this |}).
Proof.
  intros Hacc. unfold addPolicy, bind. rewrite await_accepted by exact Hacc.
  reflexivity.
Qed.

Lemma savePolicyLine_text (ptype : string) (rule : list string) :
  List.length rule <= 6 ->
  loadPolicyLine_result (savePolicyLine ptype rule)
  = policy_text ptype (filter truthy rule).
Proof.
  intros Hlen. rewrite loadPolicyLine_result_text.
  rewrite stored_values_savePolicyLine by exact Hlen. reflexivity.
Qed.

Lemma addPolicy_then_loadPolicy (H : string -> Async Casbin.Model unit)
    (sec ptype : string) (rule : list string) (this : DrizzleAdapter)
    (model : Casbin.Model) :
  Drizzle.accepts 2 (Drizzle.faults (db this)) = true ->
  exists this1 : DrizzleAdapter,
    addPolicy sec ptype rule this = (Resolved tt, this1) /\
    fst (loadPolicy H (this1, model))
    = fst (for_each
             (map (fun r : CasbinRule => loadPolicyLine_result r) (Drizzle.rows (db this))
              ++ [loadPolicyLine_result (savePolicyLine ptype rule)]) H model) /\
    snd (snd (loadPolicy H (this1, model)))
    = snd (for_each
             (map (fun r : CasbinRule => loadPolicyLine_result r) (Drizzle.rows (db this))
              ++ [loadPolicyLine_result (savePolicyLine ptype rule)]) H model).
Proof.
  intros Hacc. apply accepts_succ in Hacc. destruct Hacc as [H1 H2].
  rewrite addPolicy_accepted by exact H1. eexists. split; [reflexivity|].
  rewrite loadPolicy_accepted by exact H2.
  cbn [fst snd db Drizzle.settled Drizzle.rows Drizzle.applied Drizzle.stored].
  rewrite map_app. split; reflexivity.
Qed.

(** *** Reading a line back *)

Lemma string_app_assoc (a b c : string) :
  ((a ++ b) ++ c = a ++ (b ++ c))%string.
Proof.
  induction a as [|x a IH]; cbn [append]; [reflexivity | rewrite IH; reflexivity].
Qed.

Lemma string_app_nil_r (a : string) : (a ++ "" = a)%string.
Proof.
  induction a as [|x a IH]; cbn [append]; [reflexivity | rewrite IH; reflexivity].
Qed.

Lemma before_comma_text (ptype rest : string) :
  contains ","%char ptype = false ->
  before_comma (ptype ++ String ","%char rest) = (ptype, String ","%char rest).
Proof.
  induction ptype as [|c ptype IH]; intros H; [reflexivity|].
  cbn [contains] in H. apply orb_false_iff in H. destruct H as [Hc H].
  cbn [append before_comma]. rewrite Hc, (IH H). reflexivity.
Qed.

Lemma read_fields_inside (field : string) :
  contains dquote_char field = false ->
  forall text rest : string,
    read_fields (Some text) (field ++ String dquote_char rest)
    = (text ++ field)%string :: read_fields None rest.
Proof.
  induction field as [|c field IH]; intros H text rest.
  - cbn [append read_fields]. rewrite Ascii.eqb_refl, string_app_nil_r. reflexivity.
  - cbn [contains] in H. apply orb_false_iff in H. destruct H as [Hc H].
    cbn [append read_fields]. rewrite Hc, (IH H), string_app_assoc. reflexivity.
Qed.

Lemma read_fields_quoted (field rest : string) :
  contains dquote_char field = false ->
  read_fields None ((dquote ++ field ++ dquote) ++ rest) = field :: read_fields None rest.
Proof.
  intros H. rewrite string_app_assoc, string_app_assoc.
  change (dquote ++ (field ++ (dquote ++ rest)))%string
    with (String dquote_char (field ++ String dquote_char rest)).
  cbn [read_fields]. rewrite Ascii.eqb_refl.
  exact (read_fields_inside field H EmptyString rest).
Qed.

Lemma read_fields_joined (rule : list string) :
  Forall (fun s => contains dquote_char s = false) rule ->
  read_fields None
    (String.concat ", " (map (fun s => (dquote ++ s ++ dquote)%string) rule))
  = rule.
Proof.
  induction 1 as [|field rule Hfield Hrule IH]; [reflexivity|].
  destruct rule as [|next rule].
  - cbn [map String.concat].
    rewrite <- (string_app_nil_r (dquote ++ field ++ dquote)).
    rewrite read_fields_quoted by exact Hfield. reflexivity.
  - change (String.concat ", "
              (map (fun s => (dquote ++ s ++ dquote)%string) (field :: next :: rule)))
      with ((dquote ++ field ++ dquote)
            ++ ", "
            ++ String.concat ", "
                 (map (fun s => (dquote ++ s ++ dquote)%string) (next :: rule)))%string.
    rewrite read_fields_quoted by exact Hfield. f_equal. exact IH.
Qed.

Lemma read_line_policy_text (ptype : string) (rule : list string) :
  contains ","%char ptype = false ->
  Forall (fun s => contains dquote_char s = false) rule ->
  read_line (policy_text ptype rule) = (ptype, rule).
Proof.
  intros Hptype Hrule. unfold read_line, policy_text.
  change (ptype ++ ", " ++ ?x)%string with (ptype ++ String ","%char (String " "%char x))%string.
  rewrite before_comma_text by exact Hptype.
  change (read_fields None
            (String ","%char
               (String " "%char
                  (String.concat ", "
                     (map (fun s => (dquote ++ s ++ dquote)%string) rule)))))
    with (read_fields None
            (String.concat ", " (map (fun s => (dquote ++ s ++ dquote)%string) rule))).
  rewrite read_fields_joined by exact Hrule. reflexivity.
Qed.

(** *** Calls that complete *)

Lemma loadFilteredPolicy_accepted (H : string -> Async Casbin.Model unit)
    (filter : FilterOptions.t) (this : DrizzleAdapter) (model : Casbin.Model) :
  Drizzle.accepts 1 (Drizzle.faults (db this)) = true ->
  loadFilteredPolicy H filter (this, model)
  = (fst (for_each
            (List.filter
               (fun r : CasbinRule =>
                  Drizzle.selected (Drizzle.and (loadFilteredPolicy_conditions filter)) r)
               (Drizzle.rows (db this)))
            (loadPolicyLine H) model),
     ({| db := Drizzle.settled
                 (Drizzle.select_from (Drizzle.and (loadFilteredPolicy_conditions filter)))
                 (db this);
         filtered :=
           if resolved
                (fst (for_each
                        (List.filter
                           (fun r : CasbinRule =>
                              Drizzle.selected
                                (Drizzle.and (loadFilteredPolicy_conditions filter)) r)
                           (Drizzle.rows (db this)))
                        (loadPolicyLine H) model))
           then true else filtered this |},
      snd (for_each
             (List.filter
                (fun r : CasbinRule =>
                   Drizzle.selected (Drizzle.and (loadFilteredPolicy_conditions filter)) r)
                (Drizzle.rows (db this)))
             (loadPolicyLine H) model))).
Proof.
  intros Hacc. unfold loadFilteredPolicy.
  assert (Hquery : (if (0 <? List.length (loadFilteredPolicy_conditions filter))%nat
                    then Drizzle.select_from
                           (Drizzle.and (loadFilteredPolicy_conditions filter))
                    else Drizzle.select_from None)
                   = Drizzle.select_from
                       (Drizzle.and (loadFilteredPolicy_conditions filter))).
  { destruct (loadFilteredPolicy_conditions filter); reflexivity. }
  rewrite Hquery. unfold bind at 1. unfold on_this at 1. cbn [fst snd].
  rewrite await_accepted by exact Hacc.
  unfold bind. rewrite for_each_on_model. cbn [Drizzle.returned].
  destruct (for_each _ (loadPolicyLine H) model) as [[[]|] model']; reflexivity.
Qed.

Lemma for_each_total {S A : Type} (xs : list A) (body : A -> Async S unit) :
  (forall x s, resolved (fst (body x s)) = true) ->
  forall s : S, resolved (fst (for_each xs body s)) = true.
Proof.
  intros Hbody. induction xs as [|x xs IH]; intros s; cbn [for_each]; [reflexivity|].
  unfold bind. specialize (Hbody x s).
  destruct (body x s) as [[[]|] s']; [apply IH | discriminate Hbody].
Qed.

Lemma completes_ret {A : Type} (a : A) : completes (ret a).
Proof. intros this H. split; [reflexivity | exact H]. Qed.

Lemma completes_await (s : Drizzle.Statement) : completes (await (Drizzle.execute s)).
Proof.
  intros this H. unfold await, Drizzle.execute. rewrite H. cbn. rewrite H.
  split; reflexivity.
Qed.

Lemma completes_bind {A B : Type} (m : Async DrizzleAdapter A)
    (k : A -> Async DrizzleAdapter B) :
  completes m -> (forall a, completes (k a)) -> completes (bind m k).
Proof.
  intros Hm Hk this H. unfold bind. destruct (Hm this H) as [Hout Hfaults].
  destruct (m this) as [[a|] this']; cbn [fst snd] in *; [|discriminate Hout].
  apply Hk. exact Hfaults.
Qed.

Lemma completes_for_each {A : Type} (xs : list A)
    (body : A -> Async DrizzleAdapter unit) :
  (forall x, completes (body x)) -> completes (for_each xs body).
Proof.
  intros Hbody. induction xs as [|x xs IH]; cbn [for_each].
  - apply completes_ret.
  - apply completes_bind; [apply Hbody | intros _; exact IH].
Qed.

Create HintDb completes.
#[local] Hint Resolve completes_ret completes_await completes_bind
  completes_for_each : completes.

Lemma removePolicy_completes (sec ptype : string) (rule : list string) :
  completes (removePolicy sec ptype rule).
Proof. unfold removePolicy. auto with completes. Qed.

Lemma loads_complete (H : string -> Async Casbin.Model unit)
    (filter : FilterOptions.t) (this : DrizzleAdapter) (model : Casbin.Model) :
  (forall line m, resolved (fst (H line m)) = true) ->
  Drizzle.faults (db this) = [] ->
  (resolved (fst (loadPolicy H (this, model))) = true /\
   Drizzle.faults (db (fst (snd (loadPolicy H (this, model))))) = []) /\
  (resolved (fst (loadFilteredPolicy H filter (this, model))) = true /\
   Drizzle.faults (db (fst (snd (loadFilteredPolicy H filter (this, model))))) = []).
Proof.
  intros Htotal Hfaults.
  assert (Hacc : Drizzle.accepts 1 (Drizzle.faults (db this)) = true)
    by (rewrite Hfaults; reflexivity).
  assert (Hloop : forall (lines : list CasbinRule) (m : Casbin.Model),
             resolved (fst (for_each lines (loadPolicyLine H) m)) = true).
  { intros lines m. apply for_each_total. intros x s. apply Htotal. }
  split.
  - unfold loadPolicy, bind, on_this. cbn [fst snd].
    rewrite await_accepted by exact Hacc. rewrite for_each_on_model.
    cbn [fst snd db Drizzle.settled Drizzle.faults]. rewrite Hfaults.
    split; [apply Hloop | reflexivity].
  - rewrite loadFilteredPolicy_accepted by exact Hacc.
    cbn [fst snd db Drizzle.settled Drizzle.faults]. rewrite Hfaults.
    split; [apply Hloop | reflexivity].
Qed.

Lemma invoke_completes (H : string -> Async Casbin.Model unit) (c : Call)
    (this : DrizzleAdapter) :
  (forall line m, resolved (fst (H line m)) = true) ->
  Drizzle.faults (db this) = [] ->
  fst (invoke H c this) = true /\ Drizzle.faults (db (snd (invoke H c this))) = [].
Proof.
  intros Htotal Hfaults.
  assert (Hmethod : forall (A : Type) (m : Async DrizzleAdapter A),
             completes m ->
             fst (settles (m this)) = true
             /\ Drizzle.faults (db (snd (settles (m this)))) = []).
  { intros A m Hm. exact (Hm this Hfaults). }
  destruct c; cbn [invoke fst snd].
  - split; [reflexivity | exact Hfaults].
  - apply (loads_complete H no_filter this model Htotal Hfaults).
  - apply (loads_complete H filter this model Htotal Hfaults).
  - apply Hmethod. unfold savePolicy.
    destruct (0 <? List.length _)%nat; auto 10 with completes.
  - apply Hmethod. unfold addPolicy. auto with completes.
  - apply Hmethod. unfold addPolicies.
    destruct (0 <? List.length _)%nat; auto with completes.
  - apply Hmethod. unfold updatePolicy. auto with completes.
  - apply Hmethod. apply removePolicy_completes.
  - apply Hmethod. unfold removePolicies. apply completes_for_each.
    intros rule0. apply removePolicy_completes.
  - apply Hmethod. unfold removeFilteredPolicy.
    destruct (0 <? List.length _)%nat; auto with completes.
Qed.

Lemma run_completes (H : string -> Async Casbin.Model unit) (calls : list Call) :
  (forall line m, resolved (fst (H line m)) = true) ->
  forall this : DrizzleAdapter,
    Drizzle.faults (db this) = [] ->
    Forall (fun done => done = true) (fst (run H calls this)) /\
    filtered (snd (run H calls this))
    = filtered this || existsb is_loadFilteredPolicy calls.
Proof.
  intros Htotal. induction calls as [|c calls IH]; intros this Hfaults.
  - cbn. split; [constructor | symmetry; apply orb_false_r].
  - cbn [run]. destruct (invoke_completes H c this Htotal Hfaults) as [Hdone Hnext].
    pose proof (invoke_flag H c this) as Hflag.
    destruct (invoke H c this) as [done this']. cbn [fst snd] in *. subst done.
    destruct (IH this' Hnext) as [Hall Hfinal].
    destruct (run H calls this') as [dones final]. cbn [fst snd existsb] in *.
    split; [constructor; [reflexivity | exact Hall]|].
    rewrite Hfinal, Hflag, <- orb_assoc.
    replace (completed_loadFilteredPolicy c true) with (is_loadFilteredPolicy c)
      by (destruct c; reflexivity).
    reflexivity.
Qed.

(** ** The tests of the repository, replayed on the embedding

    [test/adapter.test.ts] saves [examples/rbac_policy.csv] and then calls
    one method; the rows below are what the enforcer reloads. *)

Example TestAdapter_save :
  let saved := snd (savePolicy example_model (newAdapter empty_db)) in
  map columns (Drizzle.rows (db saved)) = example_lines /\
  Drizzle.journal (db saved)
  = [Drizzle.delete_from None; Drizzle.insert_values example_lines].
Proof. split; reflexivity. Qed.

Example TestAdapter_load :
  snd (snd (loadPolicy record_line (example_adapter, {| Casbin.model := [] |})))
  = {| Casbin.model :=
         [(policy_text "p" ["alice"; "data1"; "read"], []);
          (policy_text "p" ["bob"; "data2"; "write"], []);
          (policy_text "p" ["data2_admin"; "data2"; "read"], []);
          (policy_text "p" ["data2_admin"; "data2"; "write"], []);
          (policy_text "g" ["alice"; "data2_admin"], [])] |}.
Proof. reflexivity. Qed.

Example TestAdapter_loadFiltered :
  snd (snd (loadFilteredPolicy record_line
              {| FilterOptions.ptype := Some "p"; FilterOptions.v0 := Some "alice";
                 FilterOptions.v1 := None; FilterOptions.v2 := None;
                 FilterOptions.v3 := None; FilterOptions.v4 := None;
                 FilterOptions.v5 := None |}
              (example_adapter, {| Casbin.model := [] |})))
  = {| Casbin.model := [(policy_text "p" ["alice"; "data1"; "read"], [])] |}.
Proof. reflexivity. Qed.

Example TestAddPolicy :
  map columns
    (Drizzle.rows (db (snd (addPolicy "" "p" ["role"; "res"; "action"] example_adapter))))
  = example_lines ++ [savePolicyLine "p" ["role"; "res"; "action"]].
Proof. reflexivity. Qed.

Example TestAddPolicies :
  let added :=
    snd (addPolicies "" "p"
           [["role1"; "res1"; "action1"]; ["role2"; "res2"; "action2"];
            ["role3"; "res3"; "action3"]] example_adapter) in
  map columns (Drizzle.rows (db added))
  = example_lines
    ++ [savePolicyLine "p" ["role1"; "res1"; "action1"];
        savePolicyLine "p" ["role2"; "res2"; "action2"];
        savePolicyLine "p" ["role3"; "res3"; "action3"]] /\
  List.length (Drizzle.journal (db added)) = 1.
Proof. split; reflexivity. Qed.

Example TestRemovePolicy :
  map columns
    (Drizzle.rows (db (snd (removePolicy "" "p" ["alice"; "data1"; "read"]
                              example_adapter))))
  = [savePolicyLine "p" ["bob"; "data2"; "write"];
     savePolicyLine "p" ["data2_admin"; "data2"; "read"];
     savePolicyLine "p" ["data2_admin"; "data2"; "write"];
     savePolicyLine "g" ["alice"; "data2_admin"]].
Proof. reflexivity. Qed.

Example TestRemovePolicies :
  map columns
    (Drizzle.rows
       (db (snd (removePolicies "" "p"
                   [["alice"; "data1"; "read"]; ["bob"; "data2"; "write"]]
                   example_adapter))))
  = [savePolicyLine "p" ["data2_admin"; "data2"; "read"];
     savePolicyLine "p" ["data2_admin"; "data2"; "write"];
     savePolicyLine "g" ["alice"; "data2_admin"]].
Proof. reflexivity. Qed.

Example TestRemoveFilteredPolicy :
  map columns
    (Drizzle.rows (db (snd (removeFilteredPolicy "" "p" 0 ["data2_admin"]
                              example_adapter))))
  = [savePolicyLine "p" ["alice"; "data1"; "read"];
     savePolicyLine "p" ["bob"; "data2"; "write"];
     savePolicyLine "g" ["alice"; "data2_admin"]].
Proof. reflexivity. Qed.

Example TestUpdatePolicy :
  map columns
    (Drizzle.rows
       (db (snd (updatePolicy "" "p" ["alice"; "data1"; "read"]
                   ["alice"; "data1"; "write"] example_adapter))))
  = [savePolicyLine "p" ["alice"; "data1"; "write"];
     savePolicyLine "p" ["bob"; "data2"; "write"];
     savePolicyLine "p" ["data2_admin"; "data2"; "read"];
     savePolicyLine "p" ["data2_admin"; "data2"; "write"];
     savePolicyLine "g" ["alice"; "data2_admin"]].
Proof. reflexivity. Qed.

Example TestIsFiltered :
  isFiltered example_adapter = false /\
  isFiltered
    (snd (run record_line
            [call_savePolicy example_model;
             call_loadFilteredPolicy {| Casbin.model := [] |}
               {| FilterOptions.ptype := Some "p"; FilterOptions.v0 := Some "alice";
                  FilterOptions.v1 := None; FilterOptions.v2 := None;
                  FilterOptions.v3 := None; FilterOptions.v4 := None;
                  FilterOptions.v5 := None |}]
            (newAdapter empty_db)))
  = true.
Proof. split; reflexivity. Qed.

(** A statement the database rejects: the call is rejected, and a
    [loadFilteredPolicy] that did not complete leaves the flag alone. *)
Example rejected_load_leaves_flag :
  run record_line
    [call_loadFilteredPolicy {| Casbin.model := [] |} no_filter; call_isFiltered]
    (newAdapter {| Drizzle.rows := Drizzle.stored 1 example_lines;
                   Drizzle.next_id := 6;
                   Drizzle.journal := [];
                   Drizzle.faults := [true] |})
  = ([false; true],
     {| db := {| Drizzle.rows := Drizzle.stored 1 example_lines;
                 Drizzle.next_id := 6;
                 Drizzle.journal := [Drizzle.select_from None];
                 Drizzle.faults := [] |};
        filtered := false |}).
Proof. reflexivity. Qed.

(** [savePolicy] whose insert is rejected after the delete settled: the
    call is rejected and the table stays empty. *)
Example rejected_insert_leaves_table_empty :
  let r := savePolicy example_model
             (newAdapter {| Drizzle.rows := Drizzle.stored 1 example_lines;
                            Drizzle.next_id := 6;
                            Drizzle.journal := [];
                            Drizzle.faults := [false; true] |}) in
  fst r = Rejected /\ Drizzle.rows (db (snd r)) = [].
Proof. split; reflexivity. Qed.

(** ** The claims *)

(** C1, as the code has it.  For a policy type without a comma and a tuple
    of one to six fields, none of which is empty or contains a double quote,
    when the database settles the two statements: [addPolicy] stores the
    tuple position by position, the values of the stored row are exactly the
    fields of the tuple, and a following [loadPolicy] hands the enforcer,
    after the lines of the rows stored before, the line of the new row; this
    line is [ptype, "f0", ..., "fn"] and reads back as the original type
    with a tuple equal to the original one, no field added and none
    missing.  No other type and tuple of this kind load as the same line. *)
Theorem addPolicy_then_loadPolicy_round_trips
    (Helper_loadPolicyLine : string -> Async Casbin.Model unit)
    (sec ptype : string) (rule : list string) (this : DrizzleAdapter)
    (model : Casbin.Model) :
  1 <= List.length rule <= 6 ->
  Forall (fun s => s <> "") rule ->
  Forall (fun s => contains dquote_char s = false) rule ->
  contains ","%char ptype = false ->
  Drizzle.accepts 2 (Drizzle.faults (db this)) = true ->
  reconstructs_tuple Helper_loadPolicyLine sec ptype rule this model /\
  round_trips Helper_loadPolicyLine sec ptype rule this model /\
  encodes ptype rule (savePolicyLine ptype rule) /\
  stored_values (savePolicyLine ptype rule) = rule /\
  loadPolicyLine_result (savePolicyLine ptype rule) = policy_text ptype rule /\
  (forall (ptype' : string) (rule' : list string),
      List.length rule' <= 6 ->
      Forall (fun s => s <> "") rule' ->
      Forall (fun s => contains dquote_char s = false) rule' ->
      contains ","%char ptype' = false ->
      loadPolicyLine_result (savePolicyLine ptype' rule')
      = loadPolicyLine_result (savePolicyLine ptype rule) ->
      ptype' = ptype /\ rule' = rule).
Proof.
  intros [_ Hlen] Hfull Hquote Hptype Hacc.
  assert (Htext : forall (p : string) (r : list string),
             List.length r <= 6 -> Forall (fun s => s <> "") r ->
             loadPolicyLine_result (savePolicyLine p r) = policy_text p r).
  { intros p r Hr Hf. rewrite savePolicyLine_text by exact Hr.
    rewrite filter_truthy_all by exact Hf. reflexivity. }
  assert (Hread : read_line (loadPolicyLine_result (savePolicyLine ptype rule))
                  = (ptype, rule)).
  { rewrite Htext by assumption. apply read_line_policy_text; assumption. }
  destruct (addPolicy_then_loadPolicy Helper_loadPolicyLine sec ptype rule this model
              Hacc) as (this1 & Hadd & Hout & Hmodel).
  split; [exists this1; repeat split; assumption|].
  split; [exists this1; rewrite <- (Htext ptype rule Hlen Hfull);
          repeat split; assumption|].
  split; [apply savePolicyLine_encodes|].
  split; [apply stored_values_savePolicyLine; exact Hlen|].
  split; [apply Htext; assumption|].
  intros ptype' rule' Hlen' Hfull' Hquote' Hptype' Hsame.
  assert (Hread' : read_line (loadPolicyLine_result (savePolicyLine ptype' rule'))
                   = (ptype', rule')).
  { rewrite Htext by assumption. apply read_line_policy_text; assumption. }
  rewrite Hsame, Hread in Hread'. injection Hread' as <- <-. split; reflexivity.
Qed.

(** The tuple of the tests, added to an empty table and loaded. *)
Lemma addPolicy_then_loadPolicy_round_trips_witness :
  reconstructs_tuple record_line "" "p" ["role"; "res"; "action"] (newAdapter empty_db)
    {| Casbin.model := [] |}.
Proof.
  refine (proj1 (addPolicy_then_loadPolicy_round_trips record_line
                   "" "p" ["role"; "res"; "action"] (newAdapter empty_db)
                   {| Casbin.model := [] |} _ _ _ _ _)).
  - simpl. lia.
  - repeat constructor; discriminate.
  - repeat constructor.
  - reflexivity.
  - reflexivity.
Defined.

(** C1, as stated, fails.  The tuple [alice, ""] has two fields, and the
    line loaded for it is that of [alice] alone: the empty field is
    missing.  The one-field tuple whose field is [x", "y] loads as the line
    of the two-field tuple [x, y], and the type [p, "x"] with the tuple [y]
    loads as the type [p] with the tuple [x, y]: the line does not tell
    them apart. *)
Lemma addPolicy_then_loadPolicy_does_not_reconstruct :
  1 <= List.length ["alice"; ""] <= 6 /\
  1 <= List.length [quoted_field_example] <= 6 /\
  Drizzle.accepts 2 (Drizzle.faults (db (newAdapter empty_db))) = true /\
  ~ reconstructs_tuple record_line "" "p" ["alice"; ""] (newAdapter empty_db)
      {| Casbin.model := [] |} /\
  read_line (loadPolicyLine_result (savePolicyLine "p" ["alice"; ""]))
  = ("p", ["alice"]) /\
  ~ reconstructs_tuple record_line "" "p" [quoted_field_example] (newAdapter empty_db)
      {| Casbin.model := [] |} /\
  read_line (loadPolicyLine_result (savePolicyLine "p" [quoted_field_example]))
  = ("p", ["x"; "y"]) /\
  ~ reconstructs_tuple record_line "" quoted_type_example ["y"] (newAdapter empty_db)
      {| Casbin.model := [] |} /\
  read_line (loadPolicyLine_result (savePolicyLine quoted_type_example ["y"]))
  = ("p", ["x"; "y"]).
Proof.
  split; [simpl; lia|]. split; [simpl; lia|]. split; [reflexivity|].
  split; [intros (this1 & _ & _ & _ & Hread); vm_compute in Hread; discriminate Hread|].
  split; [reflexivity|].
  split; [intros (this1 & _ & _ & _ & Hread); vm_compute in Hread; discriminate Hread|].
  split; [reflexivity|].
  split; [intros (this1 & _ & _ & _ & Hread); vm_compute in Hread; discriminate Hread|].
  reflexivity.
Qed.

(** The same failure at the level of the line alone: on an empty table,
    [loadPolicy] after [addPolicy] of [alice, ""] does not hand the enforcer
    the line of that tuple. *)
Lemma addPolicy_then_loadPolicy_loses_empty_field :
  1 <= List.length ["alice"; ""] <= 6 /\
  Drizzle.accepts 2 (Drizzle.faults (db (newAdapter empty_db))) = true /\
  ~ round_trips record_line "" "p" ["alice"; ""] (newAdapter empty_db)
      {| Casbin.model := [] |}.
Proof.
  split; [simpl; lia|]. split; [reflexivity|].
  intros (this1 & Hadd & _ & Hmodel).
  assert (E : addPolicy "" "p" ["alice"; ""] (newAdapter empty_db)
              = (Resolved tt,
                 snd (addPolicy "" "p" ["alice"; ""] (newAdapter empty_db))))
    by reflexivity.
  rewrite E in Hadd. injection Hadd as <-.
  vm_compute in Hmodel. discriminate Hmodel.
Qed.

(** Whatever the enforcer's parser does with a line, it is handed the same
    line for the tuples [alice, ""] and [alice]: the two loads cannot be
    told apart. *)
Lemma empty_field_cannot_be_reconstructed
    (Helper_loadPolicyLine : string -> Async Casbin.Model unit)
    (model : Casbin.Model) :
  ["alice"; ""] <> ["alice"] /\
  loadPolicyLine_result (savePolicyLine "p" ["alice"; ""])
  = loadPolicyLine_result (savePolicyLine "p" ["alice"]) /\
  fst (loadPolicy Helper_loadPolicyLine
         (snd (addPolicy "" "p" ["alice"; ""] (newAdapter empty_db)), model))
  = fst (loadPolicy Helper_loadPolicyLine
           (snd (addPolicy "" "p" ["alice"] (newAdapter empty_db)), model)) /\
  snd (snd (loadPolicy Helper_loadPolicyLine
              (snd (addPolicy "" "p" ["alice"; ""] (newAdapter empty_db)), model)))
  = snd (snd (loadPolicy Helper_loadPolicyLine
                (snd (addPolicy "" "p" ["alice"] (newAdapter empty_db)), model))).
Proof.
  split; [discriminate|]. split; [reflexivity|].
  destruct (addPolicy_then_loadPolicy Helper_loadPolicyLine "" "p" ["alice"; ""]
              (newAdapter empty_db) model eq_refl) as (a1 & Ha1 & Hf1 & Hs1).
  destruct (addPolicy_then_loadPolicy Helper_loadPolicyLine "" "p" ["alice"]
              (newAdapter empty_db) model eq_refl) as (a2 & Ha2 & Hf2 & Hs2).
  rewrite Ha1, Ha2. cbn [snd]. rewrite Hf1, Hf2, Hs1, Hs2.
  split; reflexivity.
Qed.

(** The same for a field that holds a double quote: for every parser, the
    one-field tuple [x", "y] and the two-field tuple [x, y] load alike. *)
Lemma quoted_field_cannot_be_reconstructed
    (Helper_loadPolicyLine : string -> Async Casbin.Model unit)
    (model : Casbin.Model) :
  [quoted_field_example] <> ["x"; "y"] /\
  loadPolicyLine_result (savePolicyLine "p" [quoted_field_example])
  = loadPolicyLine_result (savePolicyLine "p" ["x"; "y"]) /\
  fst (loadPolicy Helper_loadPolicyLine
         (snd (addPolicy "" "p" [quoted_field_example] (newAdapter empty_db)), model))
  = fst (loadPolicy Helper_loadPolicyLine
           (snd (addPolicy "" "p" ["x"; "y"] (newAdapter empty_db)), model)) /\
  snd (snd (loadPolicy Helper_loadPolicyLine
              (snd (addPolicy "" "p" [quoted_field_example] (newAdapter empty_db)),
               model)))
  = snd (snd (loadPolicy Helper_loadPolicyLine
                (snd (addPolicy "" "p" ["x"; "y"] (newAdapter empty_db)), model))).
Proof.
  split; [discriminate|]. split; [reflexivity|].
  destruct (addPolicy_then_loadPolicy Helper_loadPolicyLine "" "p"
              [quoted_field_example] (newAdapter empty_db) model eq_refl)
    as (a1 & Ha1 & Hf1 & Hs1).
  destruct (addPolicy_then_loadPolicy Helper_loadPolicyLine "" "p" ["x"; "y"]
              (newAdapter empty_db) model eq_refl) as (a2 & Ha2 & Hf2 & Hs2).
  rewrite Ha1, Ha2. cbn [snd]. rewrite Hf1, Hf2, Hs1, Hs2.
  split; reflexivity.
Qed.

(** C2. The flag is false on a new adapter.  [isFiltered] reads it and
    changes nothing.  A call of [loadFilteredPolicy] leaves it true exactly
    when the flag was true before or the call completed, whatever the filter
    and the rows read; [loadPolicy] leaves it as it was, and so does every
    other method.  Hence after any sequence of calls the flag is true iff it
    was true before or some [loadFilteredPolicy] call of the sequence
    completed; on a new adapter, iff some [loadFilteredPolicy] call
    completed.

    A call of [loadFilteredPolicy] does complete, and so does set the flag,
    whenever the database settles the read and the enforcer's parser accepts
    the lines of the rows read; in particular when no row satisfies the
    filter, whatever the parser does.  When the database rejects nothing and
    the parser accepts every line, every call of a sequence completes, and
    the flag at the end is true iff it was true before or the sequence
    contains a [loadFilteredPolicy] call; on a new adapter, iff the sequence
    contains one. *)
Theorem filtered_flag_is_one_way
    (Helper_loadPolicyLine : string -> Async Casbin.Model unit)
    (d : Drizzle.Db) (this : DrizzleAdapter) (model : Casbin.Model)
    (filter : FilterOptions.t) (calls : list Call) :
  isFiltered (newAdapter d) = false /\
  invoke Helper_loadPolicyLine call_isFiltered this = (true, this) /\
  isFiltered (fst (snd (loadFilteredPolicy Helper_loadPolicyLine filter (this, model))))
  = isFiltered this
    || resolved (fst (loadFilteredPolicy Helper_loadPolicyLine filter (this, model))) /\
  isFiltered (fst (snd (loadPolicy Helper_loadPolicyLine (this, model))))
  = isFiltered this /\
  isFiltered (snd (run Helper_loadPolicyLine calls this))
  = isFiltered this
    || existsb (fun cd => completed_loadFilteredPolicy (fst cd) (snd cd))
         (combine calls (fst (run Helper_loadPolicyLine calls this))) /\
  isFiltered (snd (run Helper_loadPolicyLine calls (newAdapter d)))
  = existsb (fun cd => completed_loadFilteredPolicy (fst cd) (snd cd))
      (combine calls (fst (run Helper_loadPolicyLine calls (newAdapter d)))) /\
  (Drizzle.accepts 1 (Drizzle.faults (db this)) = true ->
   resolved
     (fst (for_each
             (List.filter
                (fun r : CasbinRule =>
                   Drizzle.selected (Drizzle.and (loadFilteredPolicy_conditions filter)) r)
                (Drizzle.rows (db this)))
             (loadPolicyLine Helper_loadPolicyLine) model)) = true ->
   resolved (fst (loadFilteredPolicy Helper_loadPolicyLine filter (this, model))) = true /\
   isFiltered (fst (snd (loadFilteredPolicy Helper_loadPolicyLine filter (this, model))))
   = true) /\
  (Drizzle.accepts 1 (Drizzle.faults (db this)) = true ->
   (forall r : CasbinRule, In r (Drizzle.rows (db this)) -> ~ filter_matches filter r) ->
   resolved (fst (loadFilteredPolicy Helper_loadPolicyLine filter (this, model))) = true /\
   isFiltered (fst (snd (loadFilteredPolicy Helper_loadPolicyLine filter (this, model))))
   = true) /\
  (Drizzle.faults (db this) = [] ->
   (forall line m, resolved (fst (Helper_loadPolicyLine line m)) = true) ->
   Forall (fun done => done = true) (fst (run Helper_loadPolicyLine calls this)) /\
   isFiltered (snd (run Helper_loadPolicyLine calls this))
   = isFiltered this || existsb is_loadFilteredPolicy calls) /\
  (Drizzle.faults d = [] ->
   (forall line m, resolved (fst (Helper_loadPolicyLine line m)) = true) ->
   isFiltered (snd (run Helper_loadPolicyLine calls (newAdapter d)))
   = existsb is_loadFilteredPolicy calls).
Proof.
  assert (Hset : Drizzle.accepts 1 (Drizzle.faults (db this)) = true ->
                 resolved
                   (fst (for_each
                           (List.filter
                              (fun r : CasbinRule =>
                                 Drizzle.selected
                                   (Drizzle.and (loadFilteredPolicy_conditions filter)) r)
                              (Drizzle.rows (db this)))
                           (loadPolicyLine Helper_loadPolicyLine) model)) = true ->
                 resolved (fst (loadFilteredPolicy Helper_loadPolicyLine filter
                                  (this, model))) = true /\
                 isFiltered (fst (snd (loadFilteredPolicy Helper_loadPolicyLine filter
                                         (this, model)))) = true).
  { intros Hacc Hloop. rewrite loadFilteredPolicy_accepted by exact Hacc.
    cbn [fst snd isFiltered filtered]. rewrite Hloop. split; reflexivity. }
  assert (Hnone : Drizzle.accepts 1 (Drizzle.faults (db this)) = true ->
                  (forall r : CasbinRule,
                      In r (Drizzle.rows (db this)) -> ~ filter_matches filter r) ->
                  resolved (fst (loadFilteredPolicy Helper_loadPolicyLine filter
                                   (this, model))) = true /\
                  isFiltered (fst (snd (loadFilteredPolicy Helper_loadPolicyLine filter
                                          (this, model)))) = true).
  { intros Hacc Hrows. apply Hset; [exact Hacc|].
    rewrite filter_none_in; [reflexivity|]. intros r Hin.
    destruct (Drizzle.selected (Drizzle.and (loadFilteredPolicy_conditions filter)) r)
      eqn:E; [|reflexivity].
    exfalso. apply (Hrows r Hin). apply loadFilteredPolicy_conditions_hold. exact E. }
  split; [reflexivity|]. split; [reflexivity|].
  split; [apply loadFilteredPolicy_sets_flag|].
  split; [apply loadPolicy_keeps_flag|].
  split; [apply run_flag|].
  split; [unfold isFiltered; rewrite run_flag; reflexivity|].
  split; [exact Hset|]. split; [exact Hnone|]. split.
  - intros Hfaults Htotal. apply run_completes; assumption.
  - intros Hfaults Htotal.
    exact (proj2 (run_completes Helper_loadPolicyLine calls Htotal (newAdapter d) Hfaults)).
Qed.

(** On the stored policy, with a parser that accepts every line: a
    sequence with one [loadFilteredPolicy] ends with the flag set. *)
Lemma filtered_flag_is_one_way_witness :
  isFiltered
    (snd (run record_line
            [call_loadPolicy {| Casbin.model := [] |};
             call_loadFilteredPolicy {| Casbin.model := [] |} no_filter;
             call_removePolicy "" "p" ["alice"; "data1"; "read"]]
            example_adapter))
  = true.
Proof.
  destruct (filtered_flag_is_one_way record_line empty_db example_adapter
              {| Casbin.model := [] |} no_filter
              [call_loadPolicy {| Casbin.model := [] |};
               call_loadFilteredPolicy {| Casbin.model := [] |} no_filter;
               call_removePolicy "" "p" ["alice"; "data1"; "read"]])
    as (_ & _ & _ & _ & _ & _ & _ & _ & Hrun & _).
  destruct (Hrun eq_refl (fun line m => eq_refl)) as [_ Hflag].
  rewrite Hflag. reflexivity.
Defined.

(** C3. A [removeFilteredPolicy] call without an effective clause (the
    [ptype] is empty and every supplied value is empty or sits at an index
    outside 0..5, or no value is supplied) resolves and leaves the adapter
    and its database exactly as they were, for every table and every state
    of the database: no statement is issued, so no delete, and every row is
    unchanged.  [removeFilteredPolicy('', '', 0)] is the case with no
    value. *)
Theorem removeFilteredPolicy_empty_predicate_is_noop
    (sec ptype : string) (fieldIndex : Z) (fieldValues : list string)
    (this : DrizzleAdapter) :
  no_effective_clause ptype fieldIndex fieldValues ->
  removeFilteredPolicy sec ptype fieldIndex fieldValues this = (Resolved tt, this) /\
  Drizzle.journal (db (snd (removeFilteredPolicy sec ptype fieldIndex fieldValues this)))
  = Drizzle.journal (db this) /\
  Drizzle.rows (db (snd (removeFilteredPolicy sec ptype fieldIndex fieldValues this)))
  = Drizzle.rows (db this) /\
  removeFilteredPolicy sec "" 0 [] this = (Resolved tt, this).
Proof.
  intros H. rewrite (removeFilteredPolicy_without_clause sec _ _ _ this H).
  repeat split.
Qed.

Lemma removeFilteredPolicy_empty_predicate_is_noop_witness :
  removeFilteredPolicy "" "" 0 [] example_adapter = (Resolved tt, example_adapter).
Proof.
  refine (proj1 (removeFilteredPolicy_empty_predicate_is_noop
                   "" "" 0 [] example_adapter _)).
  split; [reflexivity|]. intros [|k] value H; discriminate H.
Defined.

(** C4. [updatePolicy] with an old tuple of at most six fields, when the
    database settles the statement: the call resolves without error; the
    rows affected are exactly those whose [ptype] equals the given one and
    whose [v_i] equals [oldRule[i]] for every [i] below the old tuple's
    length; each affected row keeps its key and has all seven fields
    overwritten with the positional encoding of the new tuple (null beyond
    its length); every other row is left as it was, so when no row matches
    the table is unchanged.  One update statement is issued. *)
Theorem updatePolicy_overwrites_matching_rows
    (sec ptype : string) (oldRule newRule : list string) (this : DrizzleAdapter) :
  List.length oldRule <= 6 ->
  Drizzle.accepts 1 (Drizzle.faults (db this)) = true ->
  exists this' : DrizzleAdapter,
    updatePolicy sec ptype oldRule newRule this = (Resolved tt, this') /\
    Forall2
      (fun r r' : CasbinRule =>
         (matches_tuple ptype oldRule r -> id r' = id r /\ encodes ptype newRule r') /\
         (~ matches_tuple ptype oldRule r -> r' = r))
      (Drizzle.rows (db this)) (Drizzle.rows (db this')) /\
    ((forall r : CasbinRule,
         In r (Drizzle.rows (db this)) -> ~ matches_tuple ptype oldRule r) ->
     Drizzle.rows (db this') = Drizzle.rows (db this)) /\
    (exists where_,
        Drizzle.journal (db this')
        = Drizzle.journal (db this)
            ++ [Drizzle.update_set (savePolicyLine ptype newRule) where_]).
Proof.
  intros Hold Hacc. unfold updatePolicy, bind.
  rewrite await_accepted by exact Hacc. eexists. split; [reflexivity|].
  cbn [db Drizzle.settled Drizzle.rows Drizzle.journal Drizzle.applied].
  rewrite updatePolicy_conditions_clauses.
  pose proof (fun r : CasbinRule => selected_matches ptype oldRule r Hold) as Hsel.
  repeat split.
  - apply Forall2_map_self. intros r _.
    destruct (Drizzle.selected _ r) eqn:E.
    + split; [intros _ | intros Hn; exfalso; apply Hn, Hsel, E].
      split; [reflexivity | apply savePolicyLine_encodes].
    + split; [|reflexivity]. intros Hm. apply Hsel in Hm.
      rewrite Hm in E. discriminate.
  - intros Hnone. apply map_unchanged. intros r Hin.
    destruct (Drizzle.selected _ r) eqn:E; [|reflexivity].
    exfalso. apply (Hnone r Hin), Hsel, E.
  - eexists. reflexivity.
Qed.

Lemma updatePolicy_overwrites_matching_rows_witness :
  exists this' : DrizzleAdapter,
    updatePolicy "" "p" ["alice"; "data1"; "read"] ["alice"; "data1"; "write"]
      example_adapter = (Resolved tt, this') /\
    map columns (Drizzle.rows (db this'))
    = [savePolicyLine "p" ["alice"; "data1"; "write"];
       savePolicyLine "p" ["bob"; "data2"; "write"];
       savePolicyLine "p" ["data2_admin"; "data2"; "read"];
       savePolicyLine "p" ["data2_admin"; "data2"; "write"];
       savePolicyLine "g" ["alice"; "data2_admin"]].
Proof.
  destruct (updatePolicy_overwrites_matching_rows
              "" "p" ["alice"; "data1"; "read"] ["alice"; "data1"; "write"]
              example_adapter) as (this' & Hrun & _).
  - simpl. lia.
  - reflexivity.
  - exists this'. split; [exact Hrun|].
    vm_compute in Hrun. injection Hrun as <-. reflexivity.
Defined.

(** C5. When the database settles the two statements, [savePolicy]
    resolves with [true]; it first issues a delete without predicate, which
    removes every row, and then one insert statement holding exactly one
    line per rule tuple of the model, those of the plain-policy family ['p']
    first and those of the grouping family ['g'] after, in the iteration
    order of the model; with no rule in the model the delete is the only
    statement.  The table afterwards holds these lines and nothing else. *)
Theorem savePolicy_replaces_table (model : Casbin.Model) (this : DrizzleAdapter) :
  Drizzle.accepts 2 (Drizzle.faults (db this)) = true ->
  exists this' : DrizzleAdapter,
    savePolicy model this = (Resolved true, this') /\
    Drizzle.rows (db this')
    = Drizzle.stored (Drizzle.next_id (db this))
        (map (fun pr => savePolicyLine (fst pr) (snd pr)) (model_rules model)) /\
    map columns (Drizzle.rows (db this'))
    = map (fun pr => savePolicyLine (fst pr) (snd pr)) (model_rules model) /\
    Drizzle.journal (db this')
    = Drizzle.journal (db this)
        ++ Drizzle.delete_from None
           :: match model_rules model with
              | [] => []
              | _ :: _ =>
                  [Drizzle.insert_values
                     (map (fun pr => savePolicyLine (fst pr) (snd pr))
                        (model_rules model))]
              end.
Proof.
  intros Hacc. apply accepts_succ in Hacc. destruct Hacc as [H1 H2].
  assert (Hclear : forall table : list CasbinRule,
             filter (fun r : CasbinRule => negb (Drizzle.selected None r)) table = []).
  { intros table. apply filter_none. reflexivity. }
  unfold savePolicy. unfold bind at 1. rewrite await_accepted by exact H1.
  rewrite !savePolicy_section_rules. cbn [app]. rewrite <- map_app.
  fold (model_rules model).
  destruct (model_rules model) as [|pr rules].
  - cbn [map List.length Nat.ltb Nat.leb]. unfold bind, ret.
    eexists. split; [reflexivity|].
    cbn [db Drizzle.settled Drizzle.rows Drizzle.journal Drizzle.applied].
    rewrite Hclear. repeat split.
  - cbn [map List.length Nat.ltb Nat.leb]. unfold bind.
    rewrite await_accepted by exact H2.
    unfold ret. eexists. split; [reflexivity|].
    cbn [db Drizzle.settled Drizzle.rows Drizzle.journal Drizzle.applied
           Drizzle.next_id Drizzle.keys_used].
    rewrite Hclear, Nat.add_0_r. cbn [app].
    split; [reflexivity|]. split.
    + exact (stored_columns _ (savePolicyLine (fst pr) (snd pr) :: map _ rules)).
    + rewrite <- app_assoc. reflexivity.
Qed.

(** The policy of the tests, as the model exposes it, saved over a table
    that held something else. *)
Lemma savePolicy_replaces_table_witness :
  exists this' : DrizzleAdapter,
    savePolicy example_model
      {| db := {| Drizzle.rows := Drizzle.stored 1 [savePolicyLine "p" ["old"]];
                  Drizzle.next_id := 2;
                  Drizzle.journal := [];
                  Drizzle.faults := [] |};
         filtered := false |}
    = (Resolved true, this') /\
    map columns (Drizzle.rows (db this')) = example_lines.
Proof.
  destruct (savePolicy_replaces_table example_model
              {| db := {| Drizzle.rows := Drizzle.stored 1 [savePolicyLine "p" ["old"]];
                          Drizzle.next_id := 2;
                          Drizzle.journal := [];
                          Drizzle.faults := [] |};
                 filtered := false |})
    as (this' & Hrun & _ & Hrows & _).
  - reflexivity.
  - exists this'. split; [exact Hrun | exact Hrows].
Defined.

(** C6, as the code has it.  When some clause is effective (the [ptype] is
    not empty, or some supplied value is not empty and sits at an index in
    0..5) and the database settles the statement, [removeFilteredPolicy]
    resolves and the rows it deletes are exactly those satisfying: equality
    on [ptype] if the given [ptype] is not empty, and for each supplied
    non-empty value at position [i] with [fieldIndex + i] in 0..5, equality
    on column [v_(fieldIndex+i)]; empty values and values at other indices
    impose nothing; the rows kept are unchanged and in order.  When no
    clause is effective, nothing is deleted.  In particular
    [removeFilteredPolicy('', 'p', 1, 'data2')] deletes exactly the rows with
    [ptype] [p] whose [v1] is [data2], whatever their [v0]. *)
Theorem removeFilteredPolicy_deletes_selected_rows
    (sec ptype : string) (fieldIndex : Z) (fieldValues : list string)
    (this : DrizzleAdapter) :
  Drizzle.accepts 1 (Drizzle.faults (db this)) = true ->
  (effective_clause ptype fieldIndex fieldValues ->
   deletes_exactly_selected sec ptype fieldIndex fieldValues this) /\
  (no_effective_clause ptype fieldIndex fieldValues ->
   removeFilteredPolicy sec ptype fieldIndex fieldValues this = (Resolved tt, this)) /\
  deletes_exactly_selected sec "p" 1 ["data2"] this /\
  (forall r : NewCasbinRule,
      filter_selects "p" 1 ["data2"] r <->
      Row.ptype r = Some "p" /\ v1 r = Some "data2").
Proof.
  intros Hacc. split; [|split; [|split]].
  - intros Heff. apply removeFilteredPolicy_with_clause; assumption.
  - apply removeFilteredPolicy_without_clause.
  - apply removeFilteredPolicy_with_clause; [left; discriminate | exact Hacc].
  - intros r. unfold filter_selects. split.
    + intros [Hp Hv]. split; [apply Hp; discriminate|].
      apply (Hv 0 "data2" eq_refl); [discriminate | simpl; lia].
    + intros [Hp Hv]. split; [intros _; exact Hp|].
      intros [|i] value Hx Hne Hrange; [|destruct i; discriminate Hx].
      injection Hx as <-. exact Hv.
Qed.

(** [removeFilteredPolicy('', 'p', 1, 'data2')] on the example policy
    removes the three [p] rows whose [v1] is [data2], whatever their [v0]. *)
Lemma removeFilteredPolicy_deletes_selected_rows_witness :
  deletes_exactly_selected "" "p" 1 ["data2"] example_adapter /\
  map columns
    (Drizzle.rows (db (snd (removeFilteredPolicy "" "p" 1 ["data2"] example_adapter))))
  = [savePolicyLine "p" ["alice"; "data1"; "read"];
     savePolicyLine "g" ["alice"; "data2_admin"]].
Proof.
  split; [|reflexivity].
  refine (proj1 (removeFilteredPolicy_deletes_selected_rows
                   "" "p" 1 ["data2"] example_adapter _) _).
  - reflexivity.
  - left. discriminate.
Defined.

(** C6, as stated, fails where no clause is effective: for
    [removeFilteredPolicy('', '', 0)] every row satisfies the (empty)
    conjunction, and the call deletes none of the five rows. *)
Lemma removeFilteredPolicy_empty_predicate_deletes_nothing :
  Drizzle.accepts 1 (Drizzle.faults (db example_adapter)) = true /\
  (forall r : CasbinRule, filter_selects "" 0 [] r) /\
  ~ deletes_exactly_selected "" "" 0 [] example_adapter.
Proof.
  assert (Hall : forall r : CasbinRule, filter_selects "" 0 [] r).
  { intros r. split; [intros H; contradiction H; reflexivity|].
    intros [|i] value H; discriminate H. }
  split; [reflexivity|]. split; [exact Hall|].
  intros (this' & keep & Hrun & Hrows & Hkeep).
  assert (E : removeFilteredPolicy "" "" 0 [] example_adapter
              = (Resolved tt, example_adapter)) by reflexivity.
  rewrite E in Hrun. injection Hrun as <-.
  rewrite (filter_none keep) in Hrows by (intros r; apply Hkeep, Hall).
  discriminate Hrows.
Qed.

(** C7. When the database settles the read, [loadFilteredPolicy] issues one
    select; the rows it reads are exactly the rows of the table that satisfy
    one equality per defined field of the filter ([ptype], [v0] .. [v5]),
    in table order, and these rows are fed through [loadPolicyLine] into the
    model, as [loadPolicy] feeds them; the table is not changed.  Undefined
    fields impose nothing: with every field undefined every row satisfies
    the filter, and the call gives the model what [loadPolicy] gives it. *)
Theorem loadFilteredPolicy_reads_matching_rows
    (Helper_loadPolicyLine : string -> Async Casbin.Model unit)
    (filter : FilterOptions.t) (this : DrizzleAdapter) (model : Casbin.Model) :
  Drizzle.accepts 1 (Drizzle.faults (db this)) = true ->
  exists keep : CasbinRule -> bool,
    (forall r : CasbinRule, keep r = true <-> filter_matches filter r) /\
    fst (loadFilteredPolicy Helper_loadPolicyLine filter (this, model))
    = fst (for_each (List.filter keep (Drizzle.rows (db this)))
             (loadPolicyLine Helper_loadPolicyLine) model) /\
    snd (snd (loadFilteredPolicy Helper_loadPolicyLine filter (this, model)))
    = snd (for_each (List.filter keep (Drizzle.rows (db this)))
             (loadPolicyLine Helper_loadPolicyLine) model) /\
    Drizzle.rows (db (fst (snd (loadFilteredPolicy Helper_loadPolicyLine filter
                                  (this, model)))))
    = Drizzle.rows (db this) /\
    (exists where_ : option Drizzle.SQL,
        Drizzle.journal (db (fst (snd (loadFilteredPolicy Helper_loadPolicyLine filter
                                         (this, model)))))
        = Drizzle.journal (db this) ++ [Drizzle.select_from where_]) /\
    (forall r : CasbinRule, filter_matches no_filter r) /\
    fst (loadFilteredPolicy Helper_loadPolicyLine no_filter (this, model))
    = fst (loadPolicy Helper_loadPolicyLine (this, model)) /\
    snd (snd (loadFilteredPolicy Helper_loadPolicyLine no_filter (this, model)))
    = snd (snd (loadPolicy Helper_loadPolicyLine (this, model))).
Proof.
  intros Hacc.
  exists (fun r : CasbinRule =>
            Drizzle.selected (Drizzle.and (loadFilteredPolicy_conditions filter)) r).
  split; [intros r; apply loadFilteredPolicy_conditions_hold|].
  assert (Hquery : forall cs : list Drizzle.SQL,
             (if (0 <? List.length cs)%nat
              then Drizzle.select_from (Drizzle.and cs)
              else Drizzle.select_from None)
             = Drizzle.select_from (Drizzle.and cs)).
  { intros [|c cs]; reflexivity. }
  assert (Hrun : forall f : FilterOptions.t,
             loadFilteredPolicy Helper_loadPolicyLine f (this, model)
             = let read :=
                 List.filter
                   (fun r : CasbinRule =>
                      Drizzle.selected (Drizzle.and (loadFilteredPolicy_conditions f)) r)
                   (Drizzle.rows (db this)) in
               let fed := for_each read (loadPolicyLine Helper_loadPolicyLine) model in
               let d :=
                 Drizzle.settled
                   (Drizzle.select_from (Drizzle.and (loadFilteredPolicy_conditions f)))
                   (db this) in
               (fst fed,
                ({| db := d;
                    filtered := if resolved (fst fed) then true else filtered this |},
                 snd fed))).
  { intros f. unfold loadFilteredPolicy. rewrite Hquery.
    unfold bind at 1. unfold on_this at 1. cbn [fst snd].
    rewrite await_accepted by exact Hacc.
    unfold bind. rewrite for_each_on_model. cbn [Drizzle.returned].
    destruct (for_each _ (loadPolicyLine Helper_loadPolicyLine) model)
      as [[[]|] model']; reflexivity. }
  rewrite !Hrun. cbn [fst snd db Drizzle.settled Drizzle.rows Drizzle.journal
                        Drizzle.applied].
  split; [reflexivity|]. split; [reflexivity|]. split; [reflexivity|].
  split; [eexists; reflexivity|].
  split; [intros r x c Hin; cbn in Hin; repeat destruct Hin as [Hin|Hin];
          try discriminate Hin; contradiction|].
  unfold loadPolicy, bind, on_this. cbn [fst snd].
  rewrite !await_accepted by exact Hacc. rewrite !for_each_on_model.
  split; reflexivity.
Qed.

(** The filtered load of the tests: [{ ptype: 'p', v0: 'alice' }] reads the
    one row of alice. *)
Lemma loadFilteredPolicy_reads_matching_rows_witness :
  exists keep : CasbinRule -> bool,
    (forall r : CasbinRule,
        keep r = true <->
        filter_matches
          {| FilterOptions.ptype := Some "p"; FilterOptions.v0 := Some "alice";
             FilterOptions.v1 := None; FilterOptions.v2 := None;
             FilterOptions.v3 := None; FilterOptions.v4 := None;
             FilterOptions.v5 := None |} r) /\
    snd (snd (loadFilteredPolicy record_line
                {| FilterOptions.ptype := Some "p"; FilterOptions.v0 := Some "alice";
                   FilterOptions.v1 := None; FilterOptions.v2 := None;
                   FilterOptions.v3 := None; FilterOptions.v4 := None;
                   FilterOptions.v5 := None |}
                (example_adapter, {| Casbin.model := [] |})))
    = snd (for_each (List.filter keep (Drizzle.rows (db example_adapter)))
             (loadPolicyLine record_line) {| Casbin.model := [] |}).
Proof.
  destruct (loadFilteredPolicy_reads_matching_rows record_line
              {| FilterOptions.ptype := Some "p"; FilterOptions.v0 := Some "alice";
                 FilterOptions.v1 := None; FilterOptions.v2 := None;
                 FilterOptions.v3 := None; FilterOptions.v4 := None;
                 FilterOptions.v5 := None |}
              example_adapter {| Casbin.model := [] |})
    as (keep & Hkeep & _ & Hmodel & _).
  - reflexivity.
  - exists keep. split; [exact Hkeep | exact Hmodel].
Defined.

(** C8. For every [ptype] and tuple, the clauses [removePolicy] builds are
    the clauses [updatePolicy] builds for the same tuple as its old rule:
    the equality on [ptype] followed by one equality per non-null value
    column of the tuple's encoding.  Both statements carry the same
    predicate; [removePolicy] issues a delete with it, which removes exactly
    the rows satisfying it and leaves the other rows as they were. *)
Theorem removePolicy_predicate_agrees_with_updatePolicy
    (sec ptype : string) (rule newRule : list string) (this : DrizzleAdapter) :
  Drizzle.accepts 1 (Drizzle.faults (db this)) = true ->
  removePolicy_conditions ptype (savePolicyLine ptype rule)
  = updatePolicy_conditions ptype (savePolicyLine ptype rule) /\
  removePolicy_conditions ptype (savePolicyLine ptype rule)
  = clauses_of ptype (savePolicyLine ptype rule) /\
  exists (where_ : option Drizzle.SQL) (removed updated : DrizzleAdapter),
    where_ = Drizzle.and (removePolicy_conditions ptype (savePolicyLine ptype rule)) /\
    (forall r : NewCasbinRule,
        Drizzle.selected where_ r = true <->
        Row.ptype r = Some ptype /\
        (forall i x, v_ i (savePolicyLine ptype rule) = Some x -> v_ i r = Some x)) /\
    removePolicy sec ptype rule this = (Resolved tt, removed) /\
    updatePolicy sec ptype rule newRule this = (Resolved tt, updated) /\
    Drizzle.journal (db removed)
    = Drizzle.journal (db this) ++ [Drizzle.delete_from where_] /\
    Drizzle.journal (db updated)
    = Drizzle.journal (db this)
        ++ [Drizzle.update_set (savePolicyLine ptype newRule) where_] /\
    Drizzle.rows (db removed)
    = filter (fun r : CasbinRule => negb (Drizzle.selected where_ r))
        (Drizzle.rows (db this)).
Proof.
  intros Hacc.
  split; [rewrite removePolicy_conditions_clauses, updatePolicy_conditions_clauses;
          reflexivity|].
  split; [apply removePolicy_conditions_clauses|].
  unfold removePolicy, updatePolicy, bind.
  rewrite !await_accepted by exact Hacc.
  rewrite updatePolicy_conditions_clauses, removePolicy_conditions_clauses.
  do 3 eexists. split; [reflexivity|].
  split; [intros r; apply clauses_hold|].
  repeat split.
Qed.

Lemma removePolicy_predicate_agrees_with_updatePolicy_witness :
  removePolicy_conditions "p" (savePolicyLine "p" ["alice"; "data1"; "read"])
  = updatePolicy_conditions "p" (savePolicyLine "p" ["alice"; "data1"; "read"]).
Proof.
  refine (proj1 (removePolicy_predicate_agrees_with_updatePolicy
                   "" "p" ["alice"; "data1"; "read"] ["alice"; "data1"; "write"]
                   example_adapter _)).
  reflexivity.
Defined.



(** C10. [removePolicy] called with the empty tuple builds the single clause
    [ptype = given ptype], and the delete it issues removes every row whose
    [ptype] is the given one, whatever the table holds, keeping the other
    rows. *)
Theorem removePolicy_empty_tuple_deletes_whole_ptype
    (sec ptype : string) (this : DrizzleAdapter) :
  Drizzle.accepts 1 (Drizzle.faults (db this)) = true ->
  removePolicy_conditions ptype (savePolicyLine ptype [])
  = [Drizzle.eq Drizzle.col_ptype ptype] /\
  (forall r : NewCasbinRule, ptype_is ptype r = true <-> Row.ptype r = Some ptype) /\
  exists this' : DrizzleAdapter,
    removePolicy sec ptype [] this = (Resolved tt, this') /\
    Drizzle.rows (db this')
    = filter (fun r : CasbinRule => negb (ptype_is ptype r)) (Drizzle.rows (db this)).
Proof.
  intros Hacc. split; [reflexivity|]. split.
  - intros r. exact (holds_eq Drizzle.col_ptype ptype r).
  - unfold removePolicy, bind. rewrite await_accepted by exact Hacc.
    eexists. split; [reflexivity|].
    cbn [db Drizzle.settled Drizzle.rows Drizzle.applied].
    apply filter_ext. intros r. f_equal.
    cbn. unfold ptype_is. destruct (Row.ptype r); [apply andb_true_r | reflexivity].
Qed.

Lemma removePolicy_empty_tuple_deletes_whole_ptype_witness :
  exists this' : DrizzleAdapter,
    removePolicy "" "p" [] example_adapter = (Resolved tt, this') /\
    map columns (Drizzle.rows (db this')) = [savePolicyLine "g" ["alice"; "data2_admin"]].
Proof.
  destruct (removePolicy_empty_tuple_deletes_whole_ptype "" "p" example_adapter)
    as (_ & _ & this' & Hrun & Hrows).
  - reflexivity.
  - exists this'. split; [exact Hrun|]. rewrite Hrows. reflexivity.
Defined.

(** ** Further properties of the adapter *)

(** *** Statements, settled or rejected *)

Lemma await_cases (s : Drizzle.Statement) (this : DrizzleAdapter) :
  await (Drizzle.execute s) this
  = (Rejected, {| db := Drizzle.refused s (db this); filtered := filtered this |})
  \/ await (Drizzle.execute s) this
     = (Resolved (Drizzle.returned s (Drizzle.rows (db this))),
        {| db := Drizzle.settled s (db this); filtered := filtered this |}).
Proof.
  unfold await, Drizzle.execute.
  destruct (Drizzle.faults (db this)) as [|[|] later]; auto.
Qed.

Lemma await_rejected (s : Drizzle.Statement) (this : DrizzleAdapter)
    (later : list bool) :
  Drizzle.faults (db this) = true :: later ->
  await (Drizzle.execute s) this
  = (Rejected, {| db := Drizzle.refused s (db this); filtered := filtered this |}).
Proof.
  intros H. unfold await, Drizzle.execute. rewrite H. reflexivity.
Qed.

Lemma await_settled (s : Drizzle.Statement) (this : DrizzleAdapter)
    (later : list bool) :
  Drizzle.faults (db this) = false :: later ->
  await (Drizzle.execute s) this
  = (Resolved (Drizzle.returned s (Drizzle.rows (db this))),
     {| db := Drizzle.settled s (db this); filtered := filtered this |}).
Proof.
  intros H. apply await_accepted. rewrite H. reflexivity.
Qed.

Lemma accepts_less (n : nat) :
  forall fs : list bool,
    Drizzle.accepts (S n) fs = true -> Drizzle.accepts n fs = true.
Proof.
  induction n as [|n IH]; intros fs H; [reflexivity|].
  destruct fs as [|f later]; [reflexivity|].
  cbn [Drizzle.accepts] in H |- *. apply andb_true_iff in H. destruct H as [Hf H].
  rewrite Hf. cbn [andb]. apply IH. exact H.
Qed.

Lemma filter_all {A : Type} (f : A -> bool) (l : list A) :
  (forall x, In x l -> f x = true) -> filter f l = l.
Proof.
  induction l as [|x l IH]; intros H; cbn [filter]; [reflexivity|].
  rewrite H by (left; reflexivity). f_equal. apply IH.
  intros y Hy. apply H. right. exact Hy.
Qed.

Lemma filter_filter {A : Type} (f g : A -> bool) (l : list A) :
  filter f (filter g l) = filter (fun x => g x && f x) l.
Proof.
  induction l as [|x l IH]; cbn [filter]; [reflexivity|].
  destruct (g x); cbn [filter andb]; [destruct (f x)|]; rewrite IH; reflexivity.
Qed.

(** *** Adding tuples *)

Lemma collected_lines {A : Type} (f : A -> NewCasbinRule) (rules : list A) :
  forall lines : list NewCasbinRule,
    fold_left (fun lines rule => push lines (f rule)) rules lines
    = lines ++ map f rules.
Proof.
  induction rules as [|rule rules IH]; intros lines; cbn [fold_left map].
  - symmetry. apply app_nil_r.
  - rewrite IH. unfold push. rewrite <- app_assoc. reflexivity.
Qed.

Lemma addPolicies_unfolded (sec ptype : string) (rules : list (list string))
    (this : DrizzleAdapter) :
  addPolicies sec ptype rules this
  = match rules with
    | [] => (Resolved tt, this)
    | _ :: _ =>
        bind (await (Drizzle.execute
                       (Drizzle.insert_values (map (savePolicyLine ptype) rules))))
          (fun _ => ret tt) this
    end.
Proof.
  unfold addPolicies. rewrite collected_lines. cbn [app].
  destruct rules as [|rule rules]; reflexivity.
Qed.

Lemma sequential_addPolicy (sec ptype : string) (rules : list (list string)) :
  forall this : DrizzleAdapter,
    Drizzle.accepts (List.length rules) (Drizzle.faults (db this)) = true ->
    fst (for_each rules (fun rule => addPolicy sec ptype rule) this) = Resolved tt /\
    Drizzle.rows (db (snd (for_each rules (fun rule => addPolicy sec ptype rule) this)))
    = Drizzle.rows (db this)
      ++ Drizzle.stored (Drizzle.next_id (db this)) (map (savePolicyLine ptype) rules) /\
    Drizzle.next_id (db (snd (for_each rules (fun rule => addPolicy sec ptype rule) this)))
    = Drizzle.next_id (db this) + List.length rules /\
    List.length
      (Drizzle.journal
         (db (snd (for_each rules (fun rule => addPolicy sec ptype rule) this))))
    = List.length (Drizzle.journal (db this)) + List.length rules.
Proof.
  induction rules as [|rule rules IH]; intros this Hacc.
  - cbn. rewrite app_nil_r, !Nat.add_0_r. repeat split.
  - cbn [List.length] in Hacc. apply accepts_succ in Hacc. destruct Hacc as [H1 H2].
    cbn [for_each]. unfold bind at 1 2 3 4.
    rewrite addPolicy_accepted by exact H1.
    specialize (IH {| db := Drizzle.settled
                              (Drizzle.insert_values [savePolicyLine ptype rule])
                              (db this);
                      filtered := filtered this |} H2).
    destruct IH as (Hout & Hrows & Hnext & Hlog).
    rewrite Hout, Hrows, Hnext, Hlog.
    cbn [db Drizzle.settled Drizzle.rows Drizzle.next_id Drizzle.journal
           Drizzle.applied Drizzle.keys_used Drizzle.stored List.length map].
    rewrite <- app_assoc, length_app. cbn [app List.length].
    replace (Drizzle.next_id (db this) + 1) with (S (Drizzle.next_id (db this))) by lia.
    repeat split; lia.
Qed.

(** X1. [addPolicies] with N tuples, and N calls of [addPolicy] in the same
    order, both resolve when the database settles the statements, and leave
    the same table, row for row and key for key, and the same next key: the
    rows before, followed by one row per tuple.  The batch issues at most
    one statement, the sequence one per tuple. *)
Theorem addPolicies_equals_sequential_addPolicy
    (sec ptype : string) (rules : list (list string)) (this : DrizzleAdapter) :
  Drizzle.accepts (List.length rules) (Drizzle.faults (db this)) = true ->
  fst (addPolicies sec ptype rules this) = Resolved tt /\
  fst (for_each rules (fun rule => addPolicy sec ptype rule) this) = Resolved tt /\
  Drizzle.rows (db (snd (addPolicies sec ptype rules this)))
  = Drizzle.rows (db (snd (for_each rules (fun rule => addPolicy sec ptype rule) this))) /\
  Drizzle.rows (db (snd (addPolicies sec ptype rules this)))
  = Drizzle.rows (db this)
    ++ Drizzle.stored (Drizzle.next_id (db this)) (map (savePolicyLine ptype) rules) /\
  Drizzle.next_id (db (snd (addPolicies sec ptype rules this)))
  = Drizzle.next_id
      (db (snd (for_each rules (fun rule => addPolicy sec ptype rule) this))) /\
  List.length (Drizzle.journal (db (snd (addPolicies sec ptype rules this))))
  <= List.length (Drizzle.journal (db this)) + 1 /\
  List.length
    (Drizzle.journal
       (db (snd (for_each rules (fun rule => addPolicy sec ptype rule) this))))
  = List.length (Drizzle.journal (db this)) + List.length rules.
Proof.
  intros Hacc.
  destruct (sequential_addPolicy sec ptype rules this Hacc)
    as (Hout & Hrows & Hnext & Hlog).
  rewrite Hout, Hrows, Hnext, Hlog, addPolicies_unfolded.
  destruct rules as [|rule rules].
  - cbn. rewrite app_nil_r, Nat.add_0_r. repeat split; lia.
  - assert (H1 : Drizzle.accepts 1 (Drizzle.faults (db this)) = true).
    { cbn [List.length] in Hacc. apply accepts_succ in Hacc. apply Hacc. }
    unfold bind. rewrite await_accepted by exact H1.
    cbn [fst snd ret db Drizzle.settled Drizzle.rows Drizzle.next_id Drizzle.journal
           Drizzle.applied Drizzle.keys_used].
    rewrite length_app, length_map. cbn [List.length]. repeat split; lia.
Qed.

Lemma addPolicies_equals_sequential_addPolicy_witness :
  map columns
    (Drizzle.rows
       (db (snd (addPolicies "" "p" [["role1"; "res1"]; ["role2"; "res2"]]
                   example_adapter))))
  = map columns
      (Drizzle.rows
         (db (snd (for_each [["role1"; "res1"]; ["role2"; "res2"]]
                     (fun rule => addPolicy "" "p" rule) example_adapter)))).
Proof.
  refine (f_equal (map columns)
            (proj1 (proj2 (proj2
               (addPolicies_equals_sequential_addPolicy
                  "" "p" [["role1"; "res1"]; ["role2"; "res2"]] example_adapter _))))).
  reflexivity.
Defined.

(** X2. Whatever the database does, [addPolicies] issues exactly one insert
    holding one line per tuple, in the order given, and no statement at all
    for an empty list, which leaves the adapter untouched; it never writes
    the tuples one by one. *)
Theorem addPolicies_issues_one_insert
    (sec ptype : string) (rules : list (list string)) (this : DrizzleAdapter) :
  Drizzle.journal (db (snd (addPolicies sec ptype rules this)))
  = Drizzle.journal (db this)
    ++ match rules with
       | [] => []
       | _ :: _ => [Drizzle.insert_values (map (savePolicyLine ptype) rules)]
       end /\
  addPolicies sec ptype [] this = (Resolved tt, this).
Proof.
  split; [|reflexivity]. rewrite addPolicies_unfolded.
  destruct rules as [|rule rules]; [cbn; symmetry; apply app_nil_r|].
  unfold bind.
  destruct (await_cases
              (Drizzle.insert_values (map (savePolicyLine ptype) (rule :: rules))) this)
    as [E|E]; rewrite E; reflexivity.
Qed.

(** *** Removing tuples *)

Lemma removePolicy_accepted (sec ptype : string) (rule : list string)
    (this : DrizzleAdapter) :
  Drizzle.accepts 1 (Drizzle.faults (db this)) = true ->
  removePolicy sec ptype rule this
  = (Resolved tt,
     {| db := Drizzle.settled (Drizzle.delete_from (tuple_where ptype rule)) (db this);
        filtered := filtered this |}).
Proof.
  intros Hacc. unfold removePolicy, bind. rewrite await_accepted by exact Hacc.
  reflexivity.
Qed.

Lemma removePolicy_rejected (sec ptype : string) (rule : list string)
    (this : DrizzleAdapter) (later : list bool) :
  Drizzle.faults (db this) = true :: later ->
  removePolicy sec ptype rule this
  = (Rejected,
     {| db := Drizzle.refused (Drizzle.delete_from (tuple_where ptype rule)) (db this);
        filtered := filtered this |}).
Proof.
  intros H. unfold removePolicy, bind. rewrite (await_rejected _ _ later H).
  reflexivity.
Qed.

Lemma removed_by_matches (ptype : string) (rules : list (list string))
    (r : NewCasbinRule) :
  Forall (fun rule => List.length rule <= 6) rules ->
  (removed_by ptype rules r = true <->
   exists rule, In rule rules /\ matches_tuple ptype rule r).
Proof.
  intros Hlen. unfold removed_by, tuple_where. rewrite existsb_exists.
  split; intros (rule & Hin & H); exists rule; (split; [exact Hin|]);
    pose proof (proj1 (Forall_forall _ _) Hlen rule Hin) as Hrule;
    rewrite removePolicy_conditions_clauses in *;
    apply (selected_matches ptype rule r Hrule); exact H.
Qed.

Lemma removePolicies_settled (sec ptype : string) (rules : list (list string)) :
  forall this : DrizzleAdapter,
    Drizzle.accepts (List.length rules) (Drizzle.faults (db this)) = true ->
    fst (removePolicies sec ptype rules this) = Resolved tt /\
    Drizzle.rows (db (snd (removePolicies sec ptype rules this)))
    = filter (fun r : CasbinRule => negb (removed_by ptype rules r))
        (Drizzle.rows (db this)) /\
    Drizzle.journal (db (snd (removePolicies sec ptype rules this)))
    = Drizzle.journal (db this)
      ++ map (fun rule => Drizzle.delete_from (tuple_where ptype rule)) rules.
Proof.
  unfold removePolicies.
  induction rules as [|rule rules IH]; intros this Hacc.
  - cbn. rewrite app_nil_r. repeat split. symmetry. apply filter_all. reflexivity.
  - cbn [List.length] in Hacc. apply accepts_succ in Hacc. destruct Hacc as [H1 H2].
    cbn [for_each]. unfold bind at 1 2 3.
    rewrite removePolicy_accepted by exact H1.
    specialize (IH {| db := Drizzle.settled
                              (Drizzle.delete_from (tuple_where ptype rule)) (db this);
                      filtered := filtered this |} H2).
    destruct IH as (Hout & Hrows & Hlog). rewrite Hout, Hrows, Hlog.
    cbn [db Drizzle.settled Drizzle.rows Drizzle.journal Drizzle.applied map].
    rewrite filter_filter, <- app_assoc. repeat split.
    apply filter_ext. intros r. unfold removed_by. cbn [existsb].
    rewrite negb_orb. reflexivity.
Qed.

(** X3. [removePolicies], when the database settles one statement per
    tuple: the call resolves; it issues one delete per tuple, in list order,
    each with the predicate [removePolicy] builds for that tuple; the table
    afterwards is the table before without the rows selected by one of
    these predicates, the other rows unchanged and in order.  When the
    tuples have at most six fields, the rows removed are those that match
    one of the tuples. *)
Theorem removePolicies_removes_each_tuple
    (sec ptype : string) (rules : list (list string)) (this : DrizzleAdapter) :
  Drizzle.accepts (List.length rules) (Drizzle.faults (db this)) = true ->
  fst (removePolicies sec ptype rules this) = Resolved tt /\
  Drizzle.rows (db (snd (removePolicies sec ptype rules this)))
  = filter (fun r : CasbinRule => negb (removed_by ptype rules r))
      (Drizzle.rows (db this)) /\
  Drizzle.journal (db (snd (removePolicies sec ptype rules this)))
  = Drizzle.journal (db this)
    ++ map (fun rule => Drizzle.delete_from (tuple_where ptype rule)) rules /\
  (Forall (fun rule => List.length rule <= 6) rules ->
   forall r : NewCasbinRule,
     removed_by ptype rules r = true <->
     exists rule, In rule rules /\ matches_tuple ptype rule r).
Proof.
  intros Hacc.
  destruct (removePolicies_settled sec ptype rules this Hacc) as (Hout & Hrows & Hlog).
  repeat split; try assumption; apply removed_by_matches; assumption.
Qed.

Lemma removePolicies_removes_each_tuple_witness :
  map columns
    (Drizzle.rows
       (db (snd (removePolicies "" "p"
                   [["alice"; "data1"; "read"]; ["bob"; "data2"; "write"]]
                   example_adapter))))
  = map columns
      (filter
         (fun r : CasbinRule =>
            negb (removed_by "p" [["alice"; "data1"; "read"]; ["bob"; "data2"; "write"]] r))
         (Drizzle.rows (db example_adapter))).
Proof.
  refine (f_equal (map columns)
            (proj1 (proj2
               (removePolicies_removes_each_tuple "" "p"
                  [["alice"; "data1"; "read"]; ["bob"; "data2"; "write"]]
                  example_adapter _)))).
  reflexivity.
Defined.

(** X4. [removePolicies] is not atomic: when the database settles the
    deletes of the first [k] tuples and rejects the next one, the call is
    rejected, the first [k] tuples stay removed, and no statement is issued
    for the tuples after the rejected one. *)
Theorem removePolicies_stops_at_rejection
    (sec ptype : string) (rules : list (list string)) (k : nat) (later : list bool) :
  forall this : DrizzleAdapter,
    k < List.length rules ->
    Drizzle.faults (db this) = repeat false k ++ true :: later ->
    fst (removePolicies sec ptype rules this) = Rejected /\
    Drizzle.rows (db (snd (removePolicies sec ptype rules this)))
    = filter (fun r : CasbinRule => negb (removed_by ptype (firstn k rules) r))
        (Drizzle.rows (db this)) /\
    Drizzle.journal (db (snd (removePolicies sec ptype rules this)))
    = Drizzle.journal (db this)
      ++ map (fun rule => Drizzle.delete_from (tuple_where ptype rule))
           (firstn (S k) rules).
Proof.
  unfold removePolicies. revert rules.
  induction k as [|k IH]; intros rules this Hk Hfaults;
    (destruct rules as [|rule rules]; [cbn in Hk; lia|]).
  - cbn [repeat app] in Hfaults. cbn [for_each]. unfold bind.
    rewrite (removePolicy_rejected _ _ _ _ later Hfaults).
    cbn [fst snd db Drizzle.refused Drizzle.rows Drizzle.journal firstn map].
    repeat split. symmetry. apply filter_all. reflexivity.
  - cbn [repeat app] in Hfaults. cbn [for_each]. unfold bind at 1 2 3.
    rewrite removePolicy_accepted by (rewrite Hfaults; reflexivity).
    destruct (IH rules
                {| db := Drizzle.settled
                           (Drizzle.delete_from (tuple_where ptype rule)) (db this);
                   filtered := filtered this |})
      as (Hout & Hrows & Hlog).
    + cbn [List.length] in Hk. lia.
    + cbn [db Drizzle.settled Drizzle.faults]. rewrite Hfaults. reflexivity.
    + rewrite Hout, Hrows, Hlog.
      cbn [db Drizzle.settled Drizzle.rows Drizzle.journal Drizzle.applied].
      rewrite filter_filter, <- app_assoc. repeat split.
      apply filter_ext. intros r. unfold removed_by.
      change (firstn (S k) (rule :: rules)) with (rule :: firstn k rules).
      cbn [existsb]. rewrite negb_orb. reflexivity.
Qed.

(** The second of three deletes is rejected: alice's rule is gone, bob's and
    the third are still there. *)
Lemma removePolicies_stops_at_rejection_witness :
  let this :=
    newAdapter {| Drizzle.rows := Drizzle.stored 1 example_lines;
                  Drizzle.next_id := 6;
                  Drizzle.journal := [];
                  Drizzle.faults := [false; true] |} in
  let r := removePolicies "" "p"
             [["alice"; "data1"; "read"]; ["bob"; "data2"; "write"];
              ["data2_admin"; "data2"; "read"]] this in
  fst r = Rejected /\ List.length (Drizzle.journal (db (snd r))) = 2.
Proof.
  cbv zeta.
  destruct (removePolicies_stops_at_rejection "" "p"
              [["alice"; "data1"; "read"]; ["bob"; "data2"; "write"];
               ["data2_admin"; "data2"; "read"]] 1 []
              (newAdapter {| Drizzle.rows := Drizzle.stored 1 example_lines;
                             Drizzle.next_id := 6;
                             Drizzle.journal := [];
                             Drizzle.faults := [false; true] |}))
    as (Hout & _ & Hlog).
  - simpl. lia.
  - reflexivity.
  - split; [exact Hout|]. rewrite Hlog. reflexivity.
Defined.

(** *** Tuples and rows *)

Lemma savePolicyLine_firstn (ptype : string) (rule : list string) :
  savePolicyLine ptype rule = savePolicyLine ptype (firstn 6 rule).
Proof.
  destruct rule as [|a [|b [|c [|d [|e [|f [|g rest]]]]]]]; reflexivity.
Qed.

(** X5. A tuple of more than six fields is cut silently: [savePolicyLine]
    encodes its first six fields and drops the others, without error.  So
    [addPolicy], [removePolicy] and [updatePolicy] do for such a tuple what
    they do for its first six fields, in every state of the adapter and of
    the database. *)
Theorem long_tuples_are_cut_to_six_fields
    (sec ptype : string) (rule other : list string) (this : DrizzleAdapter) :
  savePolicyLine ptype rule = savePolicyLine ptype (firstn 6 rule) /\
  stored_values (savePolicyLine ptype rule) = firstn 6 rule /\
  addPolicy sec ptype rule this = addPolicy sec ptype (firstn 6 rule) this /\
  removePolicy sec ptype rule this = removePolicy sec ptype (firstn 6 rule) this /\
  updatePolicy sec ptype rule other this
  = updatePolicy sec ptype (firstn 6 rule) other this /\
  updatePolicy sec ptype other rule this
  = updatePolicy sec ptype other (firstn 6 rule) this.
Proof.
  split; [apply savePolicyLine_firstn|]. split.
  - rewrite savePolicyLine_firstn. apply stored_values_savePolicyLine.
    rewrite length_firstn. lia.
  - unfold addPolicy, removePolicy, updatePolicy.
    rewrite <- !(savePolicyLine_firstn ptype rule). repeat split.
Qed.

Lemma nth_error_prefix {A : Type} (r : list A) :
  forall t : list A,
    (forall i, i < List.length r -> nth_error t i = nth_error r i)
    <-> firstn (List.length r) t = r.
Proof.
  induction r as [|x r IH]; intros t.
  - cbn. split; [reflexivity | intros _ i Hi; lia].
  - destruct t as [|y t]; cbn [List.length firstn].
    + split; [|discriminate]. intros H. specialize (H 0 (Nat.lt_0_succ _)).
      discriminate H.
    + split.
      * intros H. pose proof (H 0 (Nat.lt_0_succ _)) as H0. cbn in H0.
        injection H0 as ->. f_equal. apply IH. intros i Hi.
        apply (H (S i)). lia.
      * intros H. injection H as -> H. intros [|i] Hi; [reflexivity|].
        cbn [nth_error]. apply IH; [exact H | lia].
Qed.

(** X6. Matching is by prefix.  For tuples of at most six fields, the row
    written from a tuple [t] under [q] is selected by the predicate that
    [removePolicy] and [updatePolicy] build for a tuple [rule] under [ptype]
    exactly when [q] is [ptype] and [rule] is a prefix of [t]: a shorter
    tuple also selects every stored tuple that extends it. *)
Theorem tuple_predicate_selects_extensions
    (ptype q : string) (rule t : list string) :
  List.length rule <= 6 ->
  List.length t <= 6 ->
  (Drizzle.selected (tuple_where ptype rule) (savePolicyLine q t) = true
   <-> q = ptype /\ firstn (List.length rule) t = rule) /\
  (Drizzle.selected
     (Drizzle.and (updatePolicy_conditions ptype (savePolicyLine ptype rule)))
     (savePolicyLine q t) = true
   <-> q = ptype /\ firstn (List.length rule) t = rule).
Proof.
  intros Hrule Ht. unfold tuple_where.
  rewrite removePolicy_conditions_clauses, updatePolicy_conditions_clauses.
  assert (H : Drizzle.selected
                (Drizzle.and (clauses_of ptype (savePolicyLine ptype rule)))
                (savePolicyLine q t) = true
              <-> q = ptype /\ firstn (List.length rule) t = rule).
  { rewrite (selected_matches ptype rule _ Hrule). unfold matches_tuple.
    rewrite <- nth_error_prefix. cbn [Row.ptype savePolicyLine]. split.
    - intros [Hq Hv]. split; [congruence|]. intros i Hi.
      rewrite <- (Hv i Hi). symmetry. apply savePolicyLine_v. lia.
    - intros [-> Hv]. split; [reflexivity|]. intros i Hi.
      rewrite savePolicyLine_v by lia. apply Hv. exact Hi. }
  split; exact H.
Qed.

(** [removePolicy('p', ['data2_admin'])] selects the two stored rules of
    data2_admin. *)
Lemma tuple_predicate_selects_extensions_witness :
  Drizzle.selected (tuple_where "p" ["data2_admin"])
    (savePolicyLine "p" ["data2_admin"; "data2"; "read"]) = true.
Proof.
  refine (proj2 (proj1 (tuple_predicate_selects_extensions
                          "p" "p" ["data2_admin"] ["data2_admin"; "data2"; "read"] _ _))
            _).
  - simpl. lia.
  - simpl. lia.
  - split; reflexivity.
Defined.

Lemma line_selects_itself (ptype : string) (rule : list string) :
  Drizzle.selected (tuple_where ptype rule) (savePolicyLine ptype rule) = true.
Proof.
  unfold tuple_where. rewrite removePolicy_conditions_clauses.
  apply clauses_hold. split; [reflexivity|]. intros i x H. exact H.
Qed.

(** X7. Removing a tuple right after adding it undoes the addition: for a
    tuple of any length, when the database settles both statements, the
    table after [addPolicy] then [removePolicy] of the same tuple is the
    table that [removePolicy] alone leaves.  The row just added is gone,
    and with it every older row the tuple selects. *)
Theorem addPolicy_then_removePolicy
    (sec ptype : string) (rule : list string) (this : DrizzleAdapter) :
  Drizzle.accepts 2 (Drizzle.faults (db this)) = true ->
  fst (addPolicy sec ptype rule this) = Resolved tt /\
  fst (removePolicy sec ptype rule (snd (addPolicy sec ptype rule this))) = Resolved tt /\
  Drizzle.rows
    (db (snd (removePolicy sec ptype rule (snd (addPolicy sec ptype rule this)))))
  = Drizzle.rows (db (snd (removePolicy sec ptype rule this))) /\
  Drizzle.rows (db (snd (removePolicy sec ptype rule this)))
  = filter (fun r : CasbinRule => negb (Drizzle.selected (tuple_where ptype rule) r))
      (Drizzle.rows (db this)).
Proof.
  intros Hacc. apply accepts_succ in Hacc. destruct Hacc as [H1 H2].
  rewrite addPolicy_accepted by exact H1. cbn [fst snd].
  rewrite !removePolicy_accepted by assumption.
  cbn [fst snd db Drizzle.settled Drizzle.rows Drizzle.applied Drizzle.stored].
  rewrite filter_app. cbn [filter columns].
  rewrite line_selects_itself. cbn [negb]. rewrite app_nil_r. repeat split.
Qed.

Lemma addPolicy_then_removePolicy_witness :
  map columns
    (Drizzle.rows
       (db (snd (removePolicy "" "p" ["role"; "res"; "action"]
                   (snd (addPolicy "" "p" ["role"; "res"; "action"] example_adapter))))))
  = example_lines.
Proof.
  rewrite (proj1 (proj2 (proj2
             (addPolicy_then_removePolicy "" "p" ["role"; "res"; "action"]
                example_adapter eq_refl)))).
  reflexivity.
Defined.

(** *** Updating *)

Lemma updatePolicy_accepted (sec ptype : string) (oldRule newRule : list string)
    (this : DrizzleAdapter) :
  Drizzle.accepts 1 (Drizzle.faults (db this)) = true ->
  updatePolicy sec ptype oldRule newRule this
  = (Resolved tt,
     {| db := Drizzle.settled
                (Drizzle.update_set (savePolicyLine ptype newRule)
                   (Drizzle.and (clauses_of ptype (savePolicyLine ptype oldRule))))
                (db this);
        filtered := filtered this |}).
Proof.
  intros Hacc. unfold updatePolicy, bind. rewrite await_accepted by exact Hacc.
  rewrite updatePolicy_conditions_clauses. reflexivity.
Qed.

(** X8. After [updatePolicy], when the database settles the statement and
    the old tuple has at most six fields: unless the encoding of the new
    tuple itself matches the old tuple, no row of the table matches the old
    tuple any more; every row that matched it holds the encoding of the new
    tuple, and the rows that did not match it are as before. *)
Theorem updatePolicy_leaves_no_old_match
    (sec ptype : string) (oldRule newRule : list string) (this : DrizzleAdapter) :
  List.length oldRule <= 6 ->
  Drizzle.accepts 1 (Drizzle.faults (db this)) = true ->
  ~ matches_tuple ptype oldRule (savePolicyLine ptype newRule) ->
  fst (updatePolicy sec ptype oldRule newRule this) = Resolved tt /\
  (forall r : CasbinRule,
      In r (Drizzle.rows (db (snd (updatePolicy sec ptype oldRule newRule this)))) ->
      ~ matches_tuple ptype oldRule r) /\
  (forall r : CasbinRule,
      In r (Drizzle.rows (db this)) ->
      In (if Drizzle.selected (tuple_where ptype oldRule) r
          then {| id := id r; columns := savePolicyLine ptype newRule |}
          else r)
        (Drizzle.rows (db (snd (updatePolicy sec ptype oldRule newRule this))))).
Proof.
  intros Hold Hacc Hnew. rewrite updatePolicy_accepted by exact Hacc.
  cbn [fst snd db Drizzle.settled Drizzle.rows Drizzle.applied].
  split; [reflexivity|]. split.
  - intros r Hin. apply in_map_iff in Hin. destruct Hin as (r0 & <- & _).
    destruct (Drizzle.selected _ r0) eqn:E; cbn [columns].
    + exact Hnew.
    + intros Hm. apply (selected_matches ptype oldRule r0 Hold) in Hm.
      rewrite Hm in E. discriminate E.
  - intros r Hin. unfold tuple_where. rewrite removePolicy_conditions_clauses.
    apply (in_map (fun r : CasbinRule =>
                     if Drizzle.selected
                          (Drizzle.and (clauses_of ptype (savePolicyLine ptype oldRule))) r
                     then {| id := id r; columns := savePolicyLine ptype newRule |}
                     else r)).
    exact Hin.
Qed.

(** The update of the tests: no row holds [alice, data1, read] afterwards. *)
Lemma updatePolicy_leaves_no_old_match_witness :
  Forall (fun r : CasbinRule => ~ matches_tuple "p" ["alice"; "data1"; "read"] r)
    (Drizzle.rows
       (db (snd (updatePolicy "" "p" ["alice"; "data1"; "read"]
                   ["alice"; "data1"; "write"] example_adapter)))).
Proof.
  apply Forall_forall.
  refine (proj1 (proj2
            (updatePolicy_leaves_no_old_match "" "p" ["alice"; "data1"; "read"]
               ["alice"; "data1"; "write"] example_adapter _ _ _))).
  - simpl. lia.
  - reflexivity.
  - intros [_ H]. specialize (H 2 ltac:(simpl; lia)). discriminate H.
Defined.

(** X9. [updatePolicy] never adds or removes a row: whatever the tuples and
    whatever the database does with the statement, the table afterwards
    holds the same keys, each as many times as before, and as many rows, and
    the next key is unchanged.  (Nothing is said of the order in which a
    later read returns the rows.) *)
Theorem updatePolicy_keeps_keys
    (sec ptype : string) (oldRule newRule : list string) (this : DrizzleAdapter) :
  Permutation
    (map id (Drizzle.rows (db (snd (updatePolicy sec ptype oldRule newRule this)))))
    (map id (Drizzle.rows (db this))) /\
  List.length (Drizzle.rows (db (snd (updatePolicy sec ptype oldRule newRule this))))
  = List.length (Drizzle.rows (db this)) /\
  Drizzle.next_id (db (snd (updatePolicy sec ptype oldRule newRule this)))
  = Drizzle.next_id (db this).
Proof.
  assert (H : map id (Drizzle.rows
                        (db (snd (updatePolicy sec ptype oldRule newRule this))))
              = map id (Drizzle.rows (db this)) /\
              Drizzle.next_id (db (snd (updatePolicy sec ptype oldRule newRule this)))
              = Drizzle.next_id (db this)).
  { unfold updatePolicy, bind.
    match goal with
    | |- context [await (Drizzle.execute ?s) this] =>
        destruct (await_cases s this) as [E|E]; rewrite E
    end.
    - split; reflexivity.
    - cbn [snd ret db Drizzle.settled Drizzle.rows Drizzle.applied Drizzle.next_id
             Drizzle.keys_used].
      split; [|apply Nat.add_0_r]. rewrite map_map. apply map_ext. intros r.
      destruct (Drizzle.selected _ r); reflexivity. }
  destruct H as [Hid Hnext].
  split; [rewrite Hid; apply Permutation_refl|]. split; [|exact Hnext].
  rewrite <- (length_map id), Hid. apply length_map.
Qed.

(** *** What the methods never do *)

Lemma only_deletes_ret {A : Type} (a : A) : only_deletes (ret a).
Proof.
  intros this. exists (fun _ => true). symmetry. apply filter_all. reflexivity.
Qed.

Lemma only_deletes_delete (w : option Drizzle.SQL) :
  only_deletes (await (Drizzle.execute (Drizzle.delete_from w))).
Proof.
  intros this. destruct (await_cases (Drizzle.delete_from w) this) as [E|E]; rewrite E.
  - exists (fun _ => true). symmetry. apply filter_all. reflexivity.
  - exists (fun r : CasbinRule => negb (Drizzle.selected w r)). reflexivity.
Qed.

Lemma only_deletes_bind {A B : Type} (m : Async DrizzleAdapter A)
    (k : A -> Async DrizzleAdapter B) :
  only_deletes m -> (forall a, only_deletes (k a)) -> only_deletes (bind m k).
Proof.
  intros Hm Hk this. unfold bind. destruct (Hm this) as [keep Hkeep].
  destruct (m this) as [[a|] this']; cbn [snd] in Hkeep.
  - destruct (Hk a this') as [keep' Hkeep']. rewrite Hkeep', Hkeep, filter_filter.
    eexists. reflexivity.
  - exists keep. exact Hkeep.
Qed.

Lemma only_deletes_for_each {A : Type} (xs : list A)
    (body : A -> Async DrizzleAdapter unit) :
  (forall x, only_deletes (body x)) -> only_deletes (for_each xs body).
Proof.
  intros Hbody. induction xs as [|x xs IH]; cbn [for_each].
  - apply only_deletes_ret.
  - apply only_deletes_bind; [apply Hbody | intros _; exact IH].
Qed.

Lemma removePolicy_only_deletes (sec ptype : string) (rule : list string) :
  only_deletes (removePolicy sec ptype rule).
Proof.
  unfold removePolicy. apply only_deletes_bind;
    [apply only_deletes_delete | intros _; apply only_deletes_ret].
Qed.

(** X10. The three removal methods only delete: whatever their arguments
    and whatever the database does with their statements, the table after
    [removePolicy], [removePolicies] or [removeFilteredPolicy] is the table
    before without some of its rows; no row is added, changed or moved. *)
Theorem removals_only_delete
    (sec ptype : string) (rule : list string) (rules : list (list string))
    (fieldIndex : Z) (fieldValues : list string) :
  only_deletes (removePolicy sec ptype rule) /\
  only_deletes (removePolicies sec ptype rules) /\
  only_deletes (removeFilteredPolicy sec ptype fieldIndex fieldValues).
Proof.
  split; [apply removePolicy_only_deletes|]. split.
  - unfold removePolicies. apply only_deletes_for_each. intros r.
    apply removePolicy_only_deletes.
  - unfold removeFilteredPolicy. destruct (0 <? List.length _)%nat.
    + apply only_deletes_bind;
        [apply only_deletes_delete | intros _; apply only_deletes_ret].
    + apply only_deletes_ret.
Qed.

(** X11. The two adding methods only append: whatever the database does,
    the table after [addPolicy] or [addPolicies] is the table before followed
    by new rows, each of which holds the encoding of one of the tuples given;
    rows already stored are never changed, also when a tuple is stored
    already (no duplicate check). *)
Theorem additions_only_append
    (sec ptype : string) (rule : list string) (rules : list (list string))
    (this : DrizzleAdapter) :
  (exists added : list CasbinRule,
      Drizzle.rows (db (snd (addPolicy sec ptype rule this)))
      = Drizzle.rows (db this) ++ added /\
      Forall (fun r : CasbinRule => columns r = savePolicyLine ptype rule) added) /\
  (exists added : list CasbinRule,
      Drizzle.rows (db (snd (addPolicies sec ptype rules this)))
      = Drizzle.rows (db this) ++ added /\
      Forall (fun r : CasbinRule =>
                exists rule', In rule' rules /\ columns r = savePolicyLine ptype rule')
        added).
Proof.
  split.
  - unfold addPolicy, bind.
    destruct (await_cases (Drizzle.insert_values [savePolicyLine ptype rule]) this)
      as [E|E]; rewrite E.
    + exists []. split; [symmetry; apply app_nil_r | constructor].
    + eexists. split; [reflexivity|]. repeat constructor.
  - rewrite addPolicies_unfolded. destruct rules as [|rule0 rules].
    + exists []. split; [symmetry; apply app_nil_r | constructor].
    + unfold bind.
      destruct (await_cases
                  (Drizzle.insert_values (map (savePolicyLine ptype) (rule0 :: rules)))
                  this) as [E|E]; rewrite E.
      * exists []. split; [symmetry; apply app_nil_r | constructor].
      * eexists. split; [reflexivity|].
        generalize (Drizzle.next_id (db this)) as first.
        generalize (rule0 :: rules) as rs. clear.
        induction rs as [|r rs IH]; intros first; cbn [map Drizzle.stored];
          constructor.
        -- exists r. split; [left; reflexivity | reflexivity].
        -- apply Forall_impl with (2 := IH (S first)).
           intros row (rule' & Hin & Hrow). exists rule'. split; [right|]; assumption.
Qed.

(** X12. Loading never writes.  For every parser, every filter and every
    behaviour of the database, [loadPolicy] and [loadFilteredPolicy] leave
    the table and the next key as they were and issue exactly one statement,
    a select: without predicate for [loadPolicy], with the conjunction of the
    filter's clauses for [loadFilteredPolicy]. *)
Theorem loading_never_writes
    (Helper_loadPolicyLine : string -> Async Casbin.Model unit)
    (filter : FilterOptions.t) (this : DrizzleAdapter) (model : Casbin.Model) :
  (Drizzle.rows (db (fst (snd (loadPolicy Helper_loadPolicyLine (this, model)))))
   = Drizzle.rows (db this) /\
   Drizzle.next_id (db (fst (snd (loadPolicy Helper_loadPolicyLine (this, model)))))
   = Drizzle.next_id (db this) /\
   Drizzle.journal (db (fst (snd (loadPolicy Helper_loadPolicyLine (this, model)))))
   = Drizzle.journal (db this) ++ [Drizzle.select_from None]) /\
  (Drizzle.rows
     (db (fst (snd (loadFilteredPolicy Helper_loadPolicyLine filter (this, model)))))
   = Drizzle.rows (db this) /\
   Drizzle.next_id
     (db (fst (snd (loadFilteredPolicy Helper_loadPolicyLine filter (this, model)))))
   = Drizzle.next_id (db this) /\
   Drizzle.journal
     (db (fst (snd (loadFilteredPolicy Helper_loadPolicyLine filter (this, model)))))
   = Drizzle.journal (db this)
     ++ [Drizzle.select_from (Drizzle.and (loadFilteredPolicy_conditions filter))]).
Proof.
  split.
  - unfold loadPolicy, bind, on_this. cbn [fst snd].
    destruct (await_cases (Drizzle.select_from None) this) as [E|E]; rewrite E.
    + cbn. repeat split.
    + rewrite for_each_on_model. cbn. rewrite Nat.add_0_r. repeat split.
  - unfold loadFilteredPolicy.
    assert (Hquery : (if (0 <? List.length (loadFilteredPolicy_conditions filter))%nat
                      then Drizzle.select_from
                             (Drizzle.and (loadFilteredPolicy_conditions filter))
                      else Drizzle.select_from None)
                     = Drizzle.select_from
                         (Drizzle.and (loadFilteredPolicy_conditions filter))).
    { destruct (loadFilteredPolicy_conditions filter); reflexivity. }
    rewrite Hquery. unfold bind, on_this. cbn [fst snd].
    destruct (await_cases
                (Drizzle.select_from (Drizzle.and (loadFilteredPolicy_conditions filter)))
                this) as [E|E]; rewrite E.
    + cbn. repeat split.
    + rewrite for_each_on_model.
      destruct (for_each _ (loadPolicyLine Helper_loadPolicyLine) model)
        as [[[]|] model']; cbn; rewrite Nat.add_0_r; repeat split.
Qed.

(** X13. A rejected read leaves the model alone: when the database rejects
    the select, [loadPolicy] and [loadFilteredPolicy] are rejected, the
    parser is never called, so the model is exactly as it was, and the
    filtered flag is not touched. *)
Theorem rejected_read_leaves_model
    (Helper_loadPolicyLine : string -> Async Casbin.Model unit)
    (filter : FilterOptions.t) (this : DrizzleAdapter) (model : Casbin.Model)
    (later : list bool) :
  Drizzle.faults (db this) = true :: later ->
  fst (loadPolicy Helper_loadPolicyLine (this, model)) = Rejected /\
  snd (snd (loadPolicy Helper_loadPolicyLine (this, model))) = model /\
  fst (loadFilteredPolicy Helper_loadPolicyLine filter (this, model)) = Rejected /\
  snd (snd (loadFilteredPolicy Helper_loadPolicyLine filter (this, model))) = model /\
  isFiltered (fst (snd (loadFilteredPolicy Helper_loadPolicyLine filter (this, model))))
  = isFiltered this.
Proof.
  intros Hfaults. unfold loadPolicy, loadFilteredPolicy, bind, on_this. cbn [fst snd].
  rewrite !(await_rejected _ this later Hfaults). repeat split.
Qed.

Lemma rejected_read_leaves_model_witness :
  snd (snd (loadPolicy record_line
              (newAdapter {| Drizzle.rows := Drizzle.stored 1 example_lines;
                             Drizzle.next_id := 6;
                             Drizzle.journal := [];
                             Drizzle.faults := [true] |},
               example_model)))
  = example_model.
Proof.
  refine (proj1 (proj2
            (rejected_read_leaves_model record_line no_filter
               (newAdapter {| Drizzle.rows := Drizzle.stored 1 example_lines;
                              Drizzle.next_id := 6;
                              Drizzle.journal := [];
                              Drizzle.faults := [true] |})
               example_model [] _))).
  reflexivity.
Defined.

(** *** Saving *)

Lemma savePolicy_lines (model : Casbin.Model) :
  savePolicy_section (Casbin.get (Casbin.model model) "g")
    (savePolicy_section (Casbin.get (Casbin.model model) "p") [])
  = map (fun pr => savePolicyLine (fst pr) (snd pr)) (model_rules model).
Proof.
  rewrite !savePolicy_section_rules. cbn [app]. rewrite <- map_app. reflexivity.
Qed.

(** X14. [savePolicy] is not atomic.  When the model holds at least one
    rule, the database settles the delete and rejects the insert, the call
    is rejected and the table is left empty: the rows stored before are
    lost and no rule of the model is stored.  When the delete itself is
    rejected, the call is rejected, the table is unchanged and no insert is
    issued. *)
Theorem savePolicy_is_not_atomic
    (model : Casbin.Model) (this : DrizzleAdapter) (later : list bool) :
  model_rules model <> [] ->
  (Drizzle.faults (db this) = false :: true :: later ->
   fst (savePolicy model this) = Rejected /\
   Drizzle.rows (db (snd (savePolicy model this))) = [] /\
   List.length (Drizzle.journal (db (snd (savePolicy model this))))
   = List.length (Drizzle.journal (db this)) + 2) /\
  (Drizzle.faults (db this) = true :: later ->
   fst (savePolicy model this) = Rejected /\
   Drizzle.rows (db (snd (savePolicy model this))) = Drizzle.rows (db this) /\
   Drizzle.journal (db (snd (savePolicy model this)))
   = Drizzle.journal (db this) ++ [Drizzle.delete_from None]).
Proof.
  intros Hrules. split; intros Hfaults.
  - assert (E : savePolicy model this
                = (Rejected,
                   {| db :=
                        Drizzle.refused
                          (Drizzle.insert_values
                             (map (fun pr => savePolicyLine (fst pr) (snd pr))
                                (model_rules model)))
                          (Drizzle.settled (Drizzle.delete_from None) (db this));
                      filtered := filtered this |})).
    { unfold savePolicy. unfold bind at 1.
      rewrite (await_settled _ this _ Hfaults). rewrite savePolicy_lines.
      destruct (model_rules model) as [|pr rules]; [contradiction|].
      cbn [map List.length Nat.ltb Nat.leb]. unfold bind.
      erewrite await_rejected
        by (cbn [db Drizzle.settled Drizzle.faults]; rewrite Hfaults; reflexivity).
      reflexivity. }
    rewrite E.
    cbn [fst snd db Drizzle.settled Drizzle.refused Drizzle.rows Drizzle.journal
           Drizzle.applied].
    split; [reflexivity|]. split; [apply filter_none; reflexivity|].
    rewrite !length_app. cbn [List.length]. lia.
  - assert (E : savePolicy model this
                = (Rejected,
                   {| db := Drizzle.refused (Drizzle.delete_from None) (db this);
                      filtered := filtered this |})).
    { unfold savePolicy. unfold bind at 1.
      rewrite (await_rejected _ this later Hfaults). reflexivity. }
    rewrite E. repeat split.
Qed.

Lemma savePolicy_is_not_atomic_witness :
  Drizzle.rows
    (db (snd (savePolicy example_model
                (newAdapter {| Drizzle.rows := Drizzle.stored 1 example_lines;
                               Drizzle.next_id := 6;
                               Drizzle.journal := [];
                               Drizzle.faults := [false; true] |}))))
  = [].
Proof.
  refine (proj1 (proj2
            (proj1 (savePolicy_is_not_atomic example_model
                      (newAdapter {| Drizzle.rows := Drizzle.stored 1 example_lines;
                                     Drizzle.next_id := 6;
                                     Drizzle.journal := [];
                                     Drizzle.faults := [false; true] |})
                      [] _) _))).
  - discriminate.
  - reflexivity.
Defined.

Lemma stored_lines_text (lines : list NewCasbinRule) :
  forall first : nat,
    map (fun r : CasbinRule => loadPolicyLine_result r) (Drizzle.stored first lines)
    = map loadPolicyLine_result lines.
Proof.
  induction lines as [|line lines IH]; intros first; cbn [Drizzle.stored map columns];
    [reflexivity | rewrite IH; reflexivity].
Qed.

Lemma savePolicy_accepted (model : Casbin.Model) (this : DrizzleAdapter) :
  Drizzle.accepts 2 (Drizzle.faults (db this)) = true ->
  savePolicy model this
  = (Resolved true,
     {| db :=
          match model_rules model with
          | [] => Drizzle.settled (Drizzle.delete_from None) (db this)
          | _ :: _ =>
              Drizzle.settled
                (Drizzle.insert_values
                   (map (fun pr => savePolicyLine (fst pr) (snd pr)) (model_rules model)))
                (Drizzle.settled (Drizzle.delete_from None) (db this))
          end;
        filtered := filtered this |}).
Proof.
  intros Hacc. apply accepts_succ in Hacc. destruct Hacc as [H1 H2].
  unfold savePolicy. unfold bind at 1. rewrite await_accepted by exact H1.
  rewrite savePolicy_lines.
  destruct (model_rules model) as [|pr rules]; [reflexivity|].
  cbn [map List.length Nat.ltb Nat.leb]. unfold bind.
  rewrite await_accepted by exact H2. reflexivity.
Qed.

(** X15. Save, then load.  When every rule of the model has at most six
    fields and no empty field, and the database settles the statements,
    [savePolicy] followed by [loadPolicy] hands the enforcer exactly one line
    per rule of the model, the line of that rule, first the rules of the
    ['p'] family and then those of the ['g'] family, in the order of the
    model, and nothing of what the table held before. *)
Theorem savePolicy_then_loadPolicy
    (Helper_loadPolicyLine : string -> Async Casbin.Model unit)
    (saved : Casbin.Model) (this : DrizzleAdapter) (model : Casbin.Model) :
  Drizzle.accepts 3 (Drizzle.faults (db this)) = true ->
  Forall (fun pr : string * list string =>
            List.length (snd pr) <= 6 /\ Forall (fun s => s <> "") (snd pr))
    (model_rules saved) ->
  fst (savePolicy saved this) = Resolved true /\
  fst (loadPolicy Helper_loadPolicyLine (snd (savePolicy saved this), model))
  = fst (for_each (map (fun pr => policy_text (fst pr) (snd pr)) (model_rules saved))
           Helper_loadPolicyLine model) /\
  snd (snd (loadPolicy Helper_loadPolicyLine (snd (savePolicy saved this), model)))
  = snd (for_each (map (fun pr => policy_text (fst pr) (snd pr)) (model_rules saved))
           Helper_loadPolicyLine model).
Proof.
  intros Hacc Hrules.
  pose proof (accepts_less 2 _ Hacc) as H12.
  apply accepts_succ in Hacc. destruct Hacc as [_ H23].
  pose proof (accepts_less 1 _ H23) as H2.
  apply accepts_succ in H23. destruct H23 as [_ H3].
  assert (Htext : map loadPolicyLine_result
                    (map (fun pr => savePolicyLine (fst pr) (snd pr)) (model_rules saved))
                  = map (fun pr => policy_text (fst pr) (snd pr)) (model_rules saved)).
  { rewrite map_map. apply map_ext_in. intros pr Hin.
    destruct (proj1 (Forall_forall _ _) Hrules pr Hin) as [Hlen Hfull].
    rewrite savePolicyLine_text by exact Hlen.
    rewrite filter_truthy_all by exact Hfull. reflexivity. }
  assert (Hclear : forall table : list CasbinRule,
             filter (fun r : CasbinRule => negb (Drizzle.selected None r)) table = []).
  { intros table. apply filter_none. reflexivity. }
  rewrite savePolicy_accepted by exact H12. cbn [fst snd].
  split; [reflexivity|]. rewrite <- Htext.
  destruct (model_rules saved) as [|pr rules].
  - rewrite loadPolicy_accepted by exact H2.
    cbn [fst snd db Drizzle.settled Drizzle.rows Drizzle.applied].
    rewrite Hclear. split; reflexivity.
  - rewrite loadPolicy_accepted by exact H3.
    cbn [fst snd db Drizzle.settled Drizzle.rows Drizzle.applied].
    rewrite Hclear. cbn [app]. rewrite stored_lines_text. split; reflexivity.
Qed.

(** The policy of the tests, saved over the stored policy and loaded. *)
Lemma savePolicy_then_loadPolicy_witness :
  snd (snd (loadPolicy record_line
              (snd (savePolicy example_model example_adapter),
               {| Casbin.model := [] |})))
  = snd (for_each
           (map (fun pr => policy_text (fst pr) (snd pr)) (model_rules example_model))
           record_line {| Casbin.model := [] |}).
Proof.
  refine (proj2 (proj2
            (savePolicy_then_loadPolicy record_line example_model example_adapter
               {| Casbin.model := [] |} _ _))).
  - reflexivity.
  - repeat constructor; simpl; try lia; discriminate.
Defined.

(** *** Filtered removal and plain removal *)

Lemma removeFilteredPolicy_for_beyond (fieldIndex : Z) (rest : list string) :
  forall (i : nat) (conditions : list Drizzle.SQL),
    (5 < fieldIndex + Z.of_nat i)%Z ->
    removeFilteredPolicy_for fieldIndex i rest conditions = conditions.
Proof.
  induction rest as [|value rest IH]; intros i conditions Hi; [reflexivity|].
  rewrite removeFilteredPolicy_for_step.
  assert (E : switch_case (fieldIndex + Z.of_nat i) = None)
    by (apply switch_case_none; lia).
  rewrite E. rewrite IH by lia. destruct (truthy value); apply app_nil_r.
Qed.

Lemma removeFilteredPolicy_conditions_from_zero (ptype : string) (rule : list string) :
  ptype <> "" ->
  Forall (fun s => s <> "") rule ->
  removeFilteredPolicy_conditions ptype 0 rule
  = removePolicy_conditions ptype (savePolicyLine ptype rule).
Proof.
  intros Hp Hrule. apply truthy_nonempty in Hp.
  assert (Ht : Forall (fun s => truthy s = true) rule).
  { apply Forall_impl with (2 := Hrule). intros s. apply truthy_nonempty. }
  clear Hrule. unfold removeFilteredPolicy_conditions. rewrite Hp.
  destruct rule as [|a [|b [|c [|d [|e [|f rest]]]]]];
    repeat match goal with
           | H : Forall _ (_ :: _) |- _ => inversion H; subst; clear H
           end;
    rewrite ?removeFilteredPolicy_for_step;
    repeat match goal with
           | H : truthy _ = true |- _ => rewrite H; clear H
           end;
    try reflexivity.
  rewrite removeFilteredPolicy_for_beyond by (simpl; lia). reflexivity.
Qed.

(** X16. From position 0, a filtered removal is a plain removal: when the
    [ptype] and every field of the tuple are non-empty,
    [removeFilteredPolicy(sec, ptype, 0, ...rule)] builds the clauses that
    [removePolicy(sec, ptype, rule)] builds and the two calls do the same, in
    every state of the adapter and of the database, for a tuple of any
    length. *)
Theorem removeFilteredPolicy_from_zero_is_removePolicy
    (sec ptype : string) (rule : list string) (this : DrizzleAdapter) :
  ptype <> "" ->
  Forall (fun s => s <> "") rule ->
  removeFilteredPolicy_conditions ptype 0 rule
  = removePolicy_conditions ptype (savePolicyLine ptype rule) /\
  removeFilteredPolicy sec ptype 0 rule this = removePolicy sec ptype rule this.
Proof.
  intros Hp Hrule.
  pose proof (removeFilteredPolicy_conditions_from_zero ptype rule Hp Hrule) as E.
  split; [exact E|]. unfold removeFilteredPolicy, removePolicy. rewrite E.
  rewrite removePolicy_conditions_clauses. reflexivity.
Qed.

Lemma removeFilteredPolicy_from_zero_is_removePolicy_witness :
  removeFilteredPolicy "" "p" 0 ["alice"; "data1"; "read"] example_adapter
  = removePolicy "" "p" ["alice"; "data1"; "read"] example_adapter.
Proof.
  refine (proj2 (removeFilteredPolicy_from_zero_is_removePolicy
                   "" "p" ["alice"; "data1"; "read"] example_adapter _ _)).
  - discriminate.
  - repeat constructor; discriminate.
Defined.

Lemma filter_twice {A : Type} (f : A -> bool) (l : list A) :
  filter f (filter f l) = filter f l.
Proof.
  rewrite filter_filter. apply filter_ext. intros x. apply andb_diag.
Qed.

(** X17. Removing twice is removing once: when the database settles the
    statements, a second [removePolicy] with the same tuple, or a second
    [removeFilteredPolicy] with the same arguments, resolves and leaves the
    table as the first call left it. *)
Theorem removal_is_idempotent
    (sec ptype : string) (rule : list string) (fieldIndex : Z)
    (fieldValues : list string) (this : DrizzleAdapter) :
  Drizzle.accepts 2 (Drizzle.faults (db this)) = true ->
  (fst (removePolicy sec ptype rule (snd (removePolicy sec ptype rule this)))
   = Resolved tt /\
   Drizzle.rows (db (snd (removePolicy sec ptype rule
                            (snd (removePolicy sec ptype rule this)))))
   = Drizzle.rows (db (snd (removePolicy sec ptype rule this)))) /\
  (fst (removeFilteredPolicy sec ptype fieldIndex fieldValues
          (snd (removeFilteredPolicy sec ptype fieldIndex fieldValues this)))
   = Resolved tt /\
   Drizzle.rows
     (db (snd (removeFilteredPolicy sec ptype fieldIndex fieldValues
                 (snd (removeFilteredPolicy sec ptype fieldIndex fieldValues this)))))
   = Drizzle.rows (db (snd (removeFilteredPolicy sec ptype fieldIndex fieldValues this)))).
Proof.
  intros Hacc. apply accepts_succ in Hacc. destruct Hacc as [H1 H2]. split.
  - rewrite (removePolicy_accepted sec ptype rule this H1). cbn [snd].
    rewrite removePolicy_accepted by exact H2.
    cbn [fst snd db Drizzle.settled Drizzle.rows Drizzle.applied].
    split; [reflexivity | apply filter_twice].
  - unfold removeFilteredPolicy.
    destruct (0 <? List.length
                     (removeFilteredPolicy_conditions ptype fieldIndex fieldValues))%nat.
    + unfold bind. rewrite (await_accepted _ this H1). cbn [snd ret].
      rewrite await_accepted by exact H2.
      cbn [fst snd db Drizzle.settled Drizzle.rows Drizzle.applied].
      split; [reflexivity | apply filter_twice].
    + split; reflexivity.
Qed.

Lemma removal_is_idempotent_witness :
  Drizzle.rows
    (db (snd (removePolicy "" "p" ["alice"]
                (snd (removePolicy "" "p" ["alice"] example_adapter)))))
  = Drizzle.rows (db (snd (removePolicy "" "p" ["alice"] example_adapter))).
Proof.
  refine (proj2 (proj1
            (removal_is_idempotent "" "p" ["alice"] 0 [] example_adapter _))).
  reflexivity.
Defined.

(** *** Nulls and empty strings *)

(** X18. A row whose [ptype] is NULL is out of reach of the tuple methods:
    the predicate that [removePolicy] and [updatePolicy] build never selects
    it, whatever the [ptype] and the tuple, so these methods leave it as it
    is; [loadPolicy] still reads it, and hands the enforcer a line whose
    type is the text [null]. *)
Theorem null_ptype_rows_are_out_of_reach
    (sec ptype : string) (rule newRule : list string) (r : CasbinRule)
    (this : DrizzleAdapter) :
  Row.ptype r = None ->
  In r (Drizzle.rows (db this)) ->
  Drizzle.selected (tuple_where ptype rule) r = false /\
  In r (Drizzle.rows (db (snd (removePolicy sec ptype rule this)))) /\
  In r (Drizzle.rows (db (snd (updatePolicy sec ptype rule newRule this)))) /\
  loadPolicyLine_result r = policy_text "null" (filter truthy (stored_values r)).
Proof.
  intros Hnull Hin.
  assert (Hsel : Drizzle.selected (tuple_where ptype rule) r = false).
  { destruct (Drizzle.selected (tuple_where ptype rule) r) eqn:E; [|reflexivity].
    unfold tuple_where in E. rewrite removePolicy_conditions_clauses in E.
    apply clauses_hold in E. destruct E as [E _]. congruence. }
  split; [exact Hsel|]. split; [|split].
  - unfold removePolicy, bind.
    match goal with
    | |- context [await (Drizzle.execute ?s) this] =>
        destruct (await_cases s this) as [E|E]; rewrite E
    end; cbn [snd ret db Drizzle.refused Drizzle.settled Drizzle.rows Drizzle.applied].
    + exact Hin.
    + apply filter_In. split; [exact Hin|]. fold (tuple_where ptype rule).
      rewrite Hsel. reflexivity.
  - unfold updatePolicy, bind.
    match goal with
    | |- context [await (Drizzle.execute ?s) this] =>
        destruct (await_cases s this) as [E|E]; rewrite E
    end; cbn [snd ret db Drizzle.refused Drizzle.settled Drizzle.rows Drizzle.applied].
    + exact Hin.
    + apply in_map_iff. exists r. split; [|exact Hin].
      rewrite updatePolicy_conditions_clauses.
      unfold tuple_where in Hsel. rewrite removePolicy_conditions_clauses in Hsel.
      rewrite Hsel. reflexivity.
  - rewrite loadPolicyLine_result_text, Hnull. reflexivity.
Qed.

Lemma null_ptype_rows_are_out_of_reach_witness :
  In {| id := 7;
        columns := {| Row.ptype := None; v0 := Some "alice"; v1 := None; v2 := None;
                      v3 := None; v4 := None; v5 := None |} |}
    (Drizzle.rows
       (db (snd (removePolicy "" "p" ["alice"]
                   (newAdapter
                      {| Drizzle.rows :=
                           [{| id := 7;
                               columns := {| Row.ptype := None; v0 := Some "alice";
                                             v1 := None; v2 := None; v3 := None;
                                             v4 := None; v5 := None |} |}];
                         Drizzle.next_id := 8;
                         Drizzle.journal := [];
                         Drizzle.faults := [] |}))))).
Proof.
  refine (proj1 (proj2
            (null_ptype_rows_are_out_of_reach "" "p" ["alice"] []
               {| id := 7;
                  columns := {| Row.ptype := None; v0 := Some "alice"; v1 := None;
                                v2 := None; v3 := None; v4 := None; v5 := None |} |}
               (newAdapter
                  {| Drizzle.rows :=
                       [{| id := 7;
                           columns := {| Row.ptype := None; v0 := Some "alice";
                                         v1 := None; v2 := None; v3 := None;
                                         v4 := None; v5 := None |} |}];
                     Drizzle.next_id := 8;
                     Drizzle.journal := [];
                     Drizzle.faults := [] |})
               _ _))).
  - reflexivity.
  - left. reflexivity.
Defined.

(** X19. In a load filter the empty string is a value, not a wildcard: a
    field of the filter that is defined and empty makes [loadFilteredPolicy]
    read only rows whose column holds the empty string, so it reads no row
    written from a tuple whose field at that position is not empty.  The
    same empty string given to [removeFilteredPolicy] adds no clause at
    all. *)
Theorem empty_string_in_load_filter_is_a_constraint
    (filter : FilterOptions.t) (c : Drizzle.Column) (r : NewCasbinRule)
    (ptype : string) (fieldIndex : Z) :
  In (Some "", c) (filter_fields filter) ->
  (Drizzle.selected (Drizzle.and (loadFilteredPolicy_conditions filter)) r = true ->
   Drizzle.column_value c r = Some "") /\
  loadFilteredPolicy_conditions filter <> [] /\
  removeFilteredPolicy_conditions "" fieldIndex [""] = [].
Proof.
  intros Hin. split; [|split].
  - intros Hsel. apply loadFilteredPolicy_conditions_hold in Hsel.
    exact (Hsel "" c Hin).
  - intros E.
    pose proof (proj1 (loadFilteredPolicy_conditions_hold filter
                         {| Row.ptype := Some "x"; v0 := Some "x"; v1 := Some "x";
                            v2 := Some "x"; v3 := Some "x"; v4 := Some "x";
                            v5 := Some "x" |})) as H.
    rewrite E in H. specialize (H eq_refl "" c Hin).
    destruct c; discriminate H.
  - apply removeFilteredPolicy_conditions_nil. split; [reflexivity|].
    intros [|i] value Hv; [|destruct i; discriminate Hv].
    injection Hv as <-. left. reflexivity.
Qed.

(** A filter with [v0: ''] on the stored policy reads nothing. *)
Lemma empty_string_in_load_filter_is_a_constraint_witness :
  loadFilteredPolicy_conditions
    {| FilterOptions.ptype := None; FilterOptions.v0 := Some "";
       FilterOptions.v1 := None; FilterOptions.v2 := None;
       FilterOptions.v3 := None; FilterOptions.v4 := None;
       FilterOptions.v5 := None |} <> [].
Proof.
  refine (proj1 (proj2
            (empty_string_in_load_filter_is_a_constraint
               {| FilterOptions.ptype := None; FilterOptions.v0 := Some "";
                  FilterOptions.v1 := None; FilterOptions.v2 := None;
                  FilterOptions.v3 := None; FilterOptions.v4 := None;
                  FilterOptions.v5 := None |}
               Drizzle.col_v0
               (savePolicyLine "p" ["alice"]) "" 0 _))).
  right. left. reflexivity.
Defined.
